(** * Scoreboard controller firmware (PIC18F4550): a shallow embedding

    The development follows [src/firmware/main.c].  The firmware has two
    threads of control: the foreground loop, which decodes framed commands
    arriving on the UART and applies them to the global match state, and
    the Timer0 interrupt handler, which multiplexes the display buffer onto
    the six seven-segment digits.

    Every [uint8_t] is an integer of [Z]; the few places where the C code
    relies on the 8-bit width (the increment of [current_digit], the
    complement written to [LATD]) have the truncation written out.  The
    foreground code blocks inside [uart_read] until a byte arrives: it is
    written in the state monad over [option], where [None] means that the
    receive stream ran dry and the call is still waiting. *)

From Stdlib Require Import ZArith List Bool Lia Permutation.
From ExtLib Require Import Structures.Monad Structures.MonadState.
From ExtLib Require Import Data.Monads.StateMonad Data.Monads.OptionMonad.
Import ListNotations.
Import MonadNotation.
Local Open Scope Z_scope.
Local Open Scope monad_scope.

#[local] Existing Instance Monad_stateT.

(** ** Constants (main.c, lines 32-56) *)

Definition uint8 (b : Z) : Prop := 0 <= b < 256.

Definition CMD_UPDATE_SCORE : Z := 0x01.
Definition CMD_UPDATE_TIMER : Z := 0x02.
Definition CMD_START_MATCH  : Z := 0x03.
Definition CMD_STOP_MATCH   : Z := 0x04.
Definition CMD_RESET_MATCH  : Z := 0x05.
Definition CMD_PING         : Z := 0x06.
Definition CMD_SET_LED      : Z := 0x07.

Definition START_BYTE : Z := 0xAA.
Definition END_BYTE   : Z := 0x55.

(** Seven-segment patterns, common cathode, one per decimal digit. *)
Definition seg_patterns : list Z :=
  [ 0x3F; 0x06; 0x5B; 0x4F; 0x66; 0x6D; 0x7D; 0x07; 0x7F; 0x6F ].

(** ** Machine state *)

(** The global variables of lines 59-67. *)
Record globals : Type := mkGlobals {
  timer_minutes  : Z;
  timer_seconds  : Z;
  red_score      : Z;
  blue_score     : Z;
  display_buffer : list Z;
  current_digit  : Z;
  match_active   : bool;
  red_led_state  : bool;
  blue_led_state : bool
}.

(** The special function registers the code writes after initialisation. *)
Record sfr : Type := mkSfr {
  LATB0  : bool;
  LATB1  : bool;
  LATC   : Z;
  LATD   : Z;
  TMR0   : Z;
  TMR0IF : bool
}.

(** The serial link: [rx] lists the bytes that [RCREG] will deliver, oldest
    first; [tx] lists the bytes written to [TXREG], oldest first. *)
Record uart : Type := mkUart {
  rx : list Z;
  tx : list Z
}.

Record machine : Type := mkMachine {
  ram    : globals;
  regs   : sfr;
  serial : uart
}.

(** Values of the globals at power-up (initialisers of lines 59-67;
    [display_buffer] is filled by the first [update_display_buffer]). *)
Definition initial_globals (buf : list Z) : globals :=
  mkGlobals 2 30 0 0 buf 0 false false false.

(** *** Field updates *)

Definition set_timer_minutes (v : Z) (g : globals) : globals :=
  mkGlobals v (timer_seconds g) (red_score g) (blue_score g) (display_buffer g)
            (current_digit g) (match_active g) (red_led_state g) (blue_led_state g).
Definition set_timer_seconds (v : Z) (g : globals) : globals :=
  mkGlobals (timer_minutes g) v (red_score g) (blue_score g) (display_buffer g)
            (current_digit g) (match_active g) (red_led_state g) (blue_led_state g).
Definition set_red_score (v : Z) (g : globals) : globals :=
  mkGlobals (timer_minutes g) (timer_seconds g) v (blue_score g) (display_buffer g)
            (current_digit g) (match_active g) (red_led_state g) (blue_led_state g).
Definition set_blue_score (v : Z) (g : globals) : globals :=
  mkGlobals (timer_minutes g) (timer_seconds g) (red_score g) v (display_buffer g)
            (current_digit g) (match_active g) (red_led_state g) (blue_led_state g).
Definition set_display_buffer (v : list Z) (g : globals) : globals :=
  mkGlobals (timer_minutes g) (timer_seconds g) (red_score g) (blue_score g) v
            (current_digit g) (match_active g) (red_led_state g) (blue_led_state g).
Definition set_current_digit (v : Z) (g : globals) : globals :=
  mkGlobals (timer_minutes g) (timer_seconds g) (red_score g) (blue_score g)
            (display_buffer g) v (match_active g) (red_led_state g) (blue_led_state g).
Definition set_match_active (v : bool) (g : globals) : globals :=
  mkGlobals (timer_minutes g) (timer_seconds g) (red_score g) (blue_score g)
            (display_buffer g) (current_digit g) v (red_led_state g) (blue_led_state g).
Definition set_red_led_state (v : bool) (g : globals) : globals :=
  mkGlobals (timer_minutes g) (timer_seconds g) (red_score g) (blue_score g)
            (display_buffer g) (current_digit g) (match_active g) v (blue_led_state g).
Definition set_blue_led_state (v : bool) (g : globals) : globals :=
  mkGlobals (timer_minutes g) (timer_seconds g) (red_score g) (blue_score g)
            (display_buffer g) (current_digit g) (match_active g) (red_led_state g) v.

Definition set_LATB0 (v : bool) (r : sfr) : sfr :=
  mkSfr v (LATB1 r) (LATC r) (LATD r) (TMR0 r) (TMR0IF r).
Definition set_LATB1 (v : bool) (r : sfr) : sfr :=
  mkSfr (LATB0 r) v (LATC r) (LATD r) (TMR0 r) (TMR0IF r).
Definition set_LATC (v : Z) (r : sfr) : sfr :=
  mkSfr (LATB0 r) (LATB1 r) v (LATD r) (TMR0 r) (TMR0IF r).
Definition set_LATD (v : Z) (r : sfr) : sfr :=
  mkSfr (LATB0 r) (LATB1 r) (LATC r) v (TMR0 r) (TMR0IF r).
Definition set_TMR0 (v : Z) (r : sfr) : sfr :=
  mkSfr (LATB0 r) (LATB1 r) (LATC r) (LATD r) v (TMR0IF r).
Definition set_TMR0IF (v : bool) (r : sfr) : sfr :=
  mkSfr (LATB0 r) (LATB1 r) (LATC r) (LATD r) (TMR0 r) v.

Definition set_rx (v : list Z) (u : uart) : uart := mkUart v (tx u).
Definition set_tx (v : list Z) (u : uart) : uart := mkUart (rx u) v.

Definition with_ram (f : globals -> globals) (m : machine) : machine :=
  mkMachine (f (ram m)) (regs m) (serial m).
Definition with_regs (f : sfr -> sfr) (m : machine) : machine :=
  mkMachine (ram m) (f (regs m)) (serial m).
Definition with_serial (f : uart -> uart) (m : machine) : machine :=
  mkMachine (ram m) (regs m) (f (serial m)).

(** ** The foreground monad *)

(** A foreground routine transforms the machine and returns a value, or
    never returns because it waits for a byte that the stream does not
    hold. *)
Definition fw : Type -> Type := stateT machine option.

Definition run {A : Type} (c : fw A) (m : machine) : option (A * machine) :=
  runStateT c m.

(** Assignment to a global, a plain state update. *)
Definition assign (f : globals -> globals) : fw unit :=
  modify (with_ram f) ;; ret tt.

(** [uart_read] (lines 279-282): wait for [RCIF], then take [RCREG]. *)
Definition uart_read : fw Z :=
  mkStateT (fun m =>
    match rx (serial m) with
    | [] => None
    | b :: rest => Some (b, with_serial (set_rx rest) m)
    end).

(** [uart_write] (lines 284-287): wait for [TXIF], then load [TXREG].  The
    transmitter drains on its own, so the wait always ends. *)
Definition uart_write (data : Z) : fw unit :=
  modify (with_serial (fun u => set_tx (tx u ++ [data]) u)) ;; ret tt.

(** ** Frame reception (process_uart_command, lines 186-219) *)

(** The payload loop of lines 202-204: [n] successive reads fill
    [data[0]], ..., [data[n-1]]; the list holds exactly those entries. *)
Fixpoint read_data (n : nat) : fw (list Z) :=
  match n with
  | O => ret []
  | S n' =>
      b <- uart_read ;;
      bs <- read_data n' ;;
      ret (b :: bs)
  end.

(** The checksum loop of lines 214-217: start from [cmd ^ data_len] and
    fold every payload byte in, first to last. *)
Definition calculated_checksum (cmd data_len : Z) (data : list Z) : Z :=
  fold_left Z.lxor (firstn (Z.to_nat data_len) data) (Z.lxor cmd data_len).

(** The first half of [process_uart_command]: every [return] before the
    [switch] yields [None]; reaching the [switch] yields the three locals
    it works on, [cmd], [data_len] and [data]. *)
Definition receive_frame : fw (option (Z * Z * list Z)) :=
  start <- uart_read ;;
  if negb (start =? START_BYTE) then ret None else
  cmd <- uart_read ;;
  data_len <- uart_read ;;
  if data_len >? 10 then ret None else
  data <- read_data (Z.to_nat data_len) ;;
  checksum <- uart_read ;;
  end_ <- uart_read ;;
  if negb (end_ =? END_BYTE) then ret None else
  if negb (checksum =? calculated_checksum cmd data_len data) then ret None else
  ret (Some (cmd, data_len, data)).

(** ** The display multiplexer (ISR, lines 80-101) *)

(** The statements of the handler's body, in program order.  The C
    expression [~(1 << current_digit)] is an [int]; storing it in the 8-bit
    latch keeps its low eight bits.  [current_digit++] wraps at 256. *)
Definition ISR_body : list (machine -> machine) :=
  [ with_regs (set_TMR0IF false);
    with_regs (set_TMR0 (256 - 156));
    with_regs (set_LATD 0x3F);
    (fun m => with_regs
       (set_LATC (nth (Z.to_nat (current_digit (ram m))) (display_buffer (ram m)) 0)) m);
    (fun m => with_regs
       (set_LATD (Z.land (Z.lnot (Z.shiftl 1 (current_digit (ram m)))) 0xFF)) m);
    (fun m => with_ram (set_current_digit ((current_digit (ram m) + 1) mod 256)) m);
    (fun m => if current_digit (ram m) >=? 6
              then with_ram (set_current_digit 0) m else m) ].

Definition exec (body : list (machine -> machine)) (m : machine) : machine :=
  fold_left (fun s stmt => stmt s) body m.

(** Every machine state the body passes through, one per statement. *)
Fixpoint instants (body : list (machine -> machine)) (m : machine) : list machine :=
  match body with
  | [] => []
  | stmt :: rest => stmt m :: instants rest (stmt m)
  end.

Definition ISR (m : machine) : machine :=
  if TMR0IF (regs m) then exec ISR_body m else m.

(** One multiplexer tick: Timer0 overflows, the hardware raises [TMR0IF]
    and the handler runs. *)
Definition tick (m : machine) : machine :=
  ISR (with_regs (set_TMR0IF true) m).

(** Every machine state one tick passes through, the raised flag first. *)
Definition tick_instants (m : machine) : list machine :=
  with_regs (set_TMR0IF true) m
    :: instants ISR_body (with_regs (set_TMR0IF true) m).

Fixpoint ticks_instants (n : nat) (m : machine) : list machine :=
  match n with
  | O => []
  | S n' => tick_instants m ++ ticks_instants n' (tick m)
  end.

(** The machine after each of [n] successive ticks. *)
Fixpoint ticks (n : nat) (m : machine) : list machine :=
  match n with
  | O => []
  | S n' => tick m :: ticks n' (tick m)
  end.

(** The digit-select lines RD0-RD5 are active low: line [k] is enabled
    when bit [k] of [LATD] is clear. *)
Definition select_lines : list Z := [0; 1; 2; 3; 4; 5].

Definition enabled_lines (latd : Z) : list Z :=
  filter (fun k => negb (Z.testbit latd k)) select_lines.

(** ** Table indices (update_display_buffer, lines 169-183) *)

(** The six index expressions of [update_display_buffer], in the order of
    the slots they fill: minutes, seconds and red score, tens then ones.
    The operands are unsigned, so [/] and [%] of C are [/] and [mod]. *)
Definition display_indices (g : globals) : list Z :=
  [ timer_minutes g / 10; timer_minutes g mod 10;
    timer_seconds g / 10; timer_seconds g mod 10;
    red_score g / 10;     red_score g mod 10 ].

(** Indexing [seg_patterns] with a bounds check. *)
Definition seg_patterns_checked (i : Z) : option Z :=
  if i <? 0 then None else nth_error seg_patterns (Z.to_nat i).

(** The numeric globals hold 8-bit values. *)
Definition uint8_globals (g : globals) : Prop :=
  uint8 (timer_minutes g) /\ uint8 (timer_seconds g) /\
  uint8 (red_score g) /\ uint8 (blue_score g).

Section Firmware.

(** [seg_patterns] has ten entries and the code indexes it unchecked.  A
    read past the table returns whatever byte program memory holds there;
    nothing is assumed about it. *)
Variable beyond_table : Z -> Z.

Definition seg_patterns_read (i : Z) : Z :=
  if (0 <=? i) && (i <? 10) then nth (Z.to_nat i) seg_patterns 0
  else beyond_table i.

(** ** Display buffer (update_display_buffer, lines 169-183) *)

(** The six assignments overwrite every entry of the 6-byte array. *)
Definition update_display_buffer : fw unit :=
  g <- gets ram ;;
  assign (set_display_buffer (map seg_patterns_read (display_indices g))).

(** ** Command dispatch (process_uart_command, lines 221-276) *)

(** [data[i]] for an index the handler has checked against [data_len]. *)
Definition data_at (data : list Z) (i : nat) : Z := nth i data 0.

(** A byte stored in a [bool] is [true] exactly when it is not zero. *)
Definition to_bool (b : Z) : bool := negb (b =? 0).

Definition dispatch_command (cmd data_len : Z) (data : list Z) : fw unit :=
  if cmd =? CMD_UPDATE_SCORE then
    if data_len >=? 2 then
      assign (set_red_score (data_at data 0)) ;;
      assign (set_blue_score (data_at data 1)) ;;
      update_display_buffer
    else ret tt
  else if cmd =? CMD_UPDATE_TIMER then
    if data_len >=? 2 then
      assign (set_timer_minutes (data_at data 0)) ;;
      assign (set_timer_seconds (data_at data 1)) ;;
      update_display_buffer
    else ret tt
  else if cmd =? CMD_START_MATCH then
    assign (set_match_active true) ;;
    assign (set_red_led_state true) ;;
    assign (set_blue_led_state true)
  else if cmd =? CMD_STOP_MATCH then
    assign (set_match_active false) ;;
    assign (set_red_led_state false) ;;
    assign (set_blue_led_state false)
  else if cmd =? CMD_RESET_MATCH then
    assign (set_timer_minutes 2) ;;
    assign (set_timer_seconds 30) ;;
    assign (set_red_score 0) ;;
    assign (set_blue_score 0) ;;
    assign (set_match_active false) ;;
    update_display_buffer
  else if cmd =? CMD_PING then
    uart_write 0xAA ;;
    uart_write 0xCC ;;
    uart_write 0x55
  else if cmd =? CMD_SET_LED then
    if data_len >=? 2 then
      if data_at data 0 =? 0x01 then
        assign (set_red_led_state (to_bool (data_at data 1)))
      else if data_at data 0 =? 0x02 then
        assign (set_blue_led_state (to_bool (data_at data 1)))
      else ret tt
    else ret tt
  else ret tt.

Definition process_uart_command : fw unit :=
  frame <- receive_frame ;;
  match frame with
  | Some (cmd, data_len, data) => dispatch_command cmd data_len data
  | None => ret tt
  end.

(** ** The foreground loop (main, lines 115-129) *)

(** The indicator refresh of lines 122-128. *)
Definition update_leds (m : machine) : machine :=
  if match_active (ram m) then
    with_regs (set_LATB1 (blue_led_state (ram m)))
      (with_regs (set_LATB0 (red_led_state (ram m))) m)
  else
    with_regs (set_LATB1 false) (with_regs (set_LATB0 false) m).

(** One turn of [while(1)]: [RCIF] is set when a received byte waits. *)
Definition main_loop_body : fw unit :=
  m <- get ;;
  (match rx (serial m) with
   | [] => ret tt
   | _ :: _ => process_uart_command
   end) ;;
  modify update_leds ;; ret tt.

End Firmware.

(** ** The wire format *)

(** The checksum as the protocol words it: opcode XOR length XOR the XOR
    of all payload bytes. *)
Definition frame_checksum (opcode : Z) (payload : list Z) : Z :=
  Z.lxor (Z.lxor opcode (Z.of_nat (length payload)))
         (fold_right Z.lxor 0 payload).

(** A frame on the wire, carrying [chk] in its checksum position. *)
Definition frame_with_checksum (opcode : Z) (payload : list Z) (chk : Z) : list Z :=
  START_BYTE :: opcode :: Z.of_nat (length payload) :: payload ++ [chk; END_BYTE].

Definition well_formed_frame (opcode : Z) (payload : list Z) : list Z :=
  frame_with_checksum opcode payload (frame_checksum opcode payload).

(** The machine [m] with [bytes] waiting in the receiver. *)
Definition receiving (bytes : list Z) (m : machine) : machine :=
  with_serial (set_rx bytes) m.

(** The slots reached from slot [s] in six steps of the cyclic order. *)
Definition cyclic_slots (s : Z) : list Z :=
  map (fun k => (s + k) mod 6) [0; 1; 2; 3; 4; 5].

(** ** Reference states *)

(** The state the ResetMatch command is said to restore: every field at
    its power-up value, both indicator flags included. *)
Definition default_state (g : globals) : Prop :=
  timer_minutes g = 2 /\ timer_seconds g = 30 /\
  red_score g = 0 /\ blue_score g = 0 /\
  match_active g = false /\
  red_led_state g = false /\ blue_led_state g = false.

(** The machine once [main] has initialised it: the globals at their
    initial values, the buffer showing 02:30 and a red score of 00, the
    digit-select lines all high, nothing received or sent. *)
Definition power_on : machine :=
  mkMachine (initial_globals [0x3F; 0x5B; 0x4F; 0x3F; 0x3F; 0x3F])
            (mkSfr false false 0 0x3F (256 - 156) false)
            (mkUart [] []).

(** The machine while a match runs: [power_on] after a StartMatch command. *)
Definition match_running : machine :=
  mkMachine (mkGlobals 2 30 0 0 [0x3F; 0x5B; 0x4F; 0x3F; 0x3F; 0x3F] 0 true true true)
            (mkSfr true true 0 0x3F (256 - 156) false)
            (mkUart [] []).

(** ** The checksum helper (calculate_checksum, lines 289-295) *)

(** The loop XORs [data[0]], ..., [data[len-1]] into a zero accumulator. *)
Definition calculate_checksum (data : list Z) (len : Z) : Z :=
  fold_left Z.lxor (firstn (Z.to_nat len) data) 0.

(** ** Initialisation (main, lines 103-113 and 132-167) *)







(** ** Successive passes *)

(** [n] calls of [process_uart_command], one after the other. *)
Fixpoint passes (beyond_table : Z -> Z) (n : nat) : fw unit :=
  match n with
  | O => ret tt
  | S n' => process_uart_command beyond_table ;; passes beyond_table n'
  end.

(** A command as the switch sees it: opcode and payload. *)
Definition command : Type := (Z * list Z)%type.

(** The commands of a list, each in a well-formed frame, back to back. *)
Definition frames (cmds : list command) : list Z :=
  flat_map (fun c => well_formed_frame (fst c) (snd c)) cmds.

(** The dispatches of the commands of a list, in order. *)
Fixpoint dispatch_all (beyond_table : Z -> Z) (cmds : list command) : fw unit :=
  match cmds with
  | [] => ret tt
  | c :: rest =>
      dispatch_command beyond_table (fst c) (Z.of_nat (length (snd c))) (snd c) ;;
      dispatch_all beyond_table rest
  end.

(** ** Consistency of the display *)

(** The display buffer holds what [update_display_buffer] would compute
    from the current timer and red score. *)
Definition buffer_consistent (beyond_table : Z -> Z) (g : globals) : Prop :=
  display_buffer g = map (seg_patterns_read beyond_table) (display_indices g).

(** * Properties *)

(** ** Running the monad *)

Lemma run_ret {A : Type} (a : A) (m : machine) : run (ret a) m = Some (a, m).
Proof. reflexivity. Qed.

Lemma run_bind {A B : Type} (c : fw A) (f : A -> fw B) (m : machine) :
  run (bind c f) m =
  match run c m with
  | Some (a, m') => run (f a) m'
  | None => None
  end.
Proof. unfold run. simpl. destruct (runStateT c m) as [[a m']|]; reflexivity. Qed.

Lemma run_assign (f : globals -> globals) (m : machine) :
  run (assign f) m = Some (tt, with_ram f m).
Proof. reflexivity. Qed.

Lemma run_uart_write (b : Z) (m : machine) :
  run (uart_write b) m =
  Some (tt, with_serial (fun u => set_tx (tx u ++ [b]) u) m).
Proof. reflexivity. Qed.

Lemma run_uart_read (b : Z) (rest : list Z) (m : machine) :
  run uart_read (receiving (b :: rest) m) = Some (b, receiving rest m).
Proof. reflexivity. Qed.

Lemma run_uart_read_blocked (m : machine) :
  run uart_read (receiving [] m) = None.
Proof. reflexivity. Qed.

(** ** Frame reception *)

Lemma run_read_data (payload rest : list Z) (m : machine) :
  run (read_data (length payload)) (receiving (payload ++ rest) m) =
  Some (payload, receiving rest m).
Proof.
  revert m. induction payload as [|b bs IH]; intros m; cbn [length app read_data].
  - reflexivity.
  - rewrite run_bind, run_uart_read, run_bind, IH. reflexivity.
Qed.

Lemma fold_left_lxor (l : list Z) (a : Z) :
  fold_left Z.lxor l a = Z.lxor a (fold_right Z.lxor 0 l).
Proof.
  revert a. induction l as [|x xs IH]; intros a; simpl.
  - now rewrite Z.lxor_0_r.
  - now rewrite IH, Z.lxor_assoc.
Qed.

(** The loop of the code computes the checksum of the protocol. *)
Lemma calculated_checksum_frame (cmd : Z) (payload : list Z) :
  calculated_checksum cmd (Z.of_nat (length payload)) payload =
  frame_checksum cmd payload.
Proof.
  unfold calculated_checksum, frame_checksum.
  rewrite Nat2Z.id, firstn_all. apply fold_left_lxor.
Qed.

(** What one reception does with a frame-shaped input whose length byte is
    within the bound: it takes the whole frame off the stream and accepts
    it exactly when the end marker and the checksum are right. *)
Lemma run_receive_frame_shape (cmd chk e : Z) (payload rest : list Z) (m : machine) :
  Z.of_nat (length payload) <= 10 ->
  run receive_frame
      (receiving (START_BYTE :: cmd :: Z.of_nat (length payload)
                    :: payload ++ chk :: e :: rest) m) =
  Some (if negb (e =? END_BYTE) then None
        else if negb (chk =? frame_checksum cmd payload) then None
        else Some (cmd, Z.of_nat (length payload), payload),
        receiving rest m).
Proof.
  intros Hlen. unfold receive_frame.
  rewrite run_bind, run_uart_read. simpl negb. cbv iota.
  rewrite run_bind, run_uart_read, run_bind, run_uart_read.
  destruct (Z.gtb_spec (Z.of_nat (length payload)) 10) as [Hgt|_]; [lia|].
  rewrite run_bind, Nat2Z.id, run_read_data.
  rewrite run_bind, run_uart_read, run_bind, run_uart_read.
  rewrite calculated_checksum_frame.
  destruct (negb (e =? END_BYTE)); [reflexivity|].
  destruct (negb (chk =? frame_checksum cmd payload)); reflexivity.
Qed.

Lemma run_receive_frame_too_long (cmd len : Z) (rest : list Z) (m : machine) :
  len > 10 ->
  run receive_frame (receiving (START_BYTE :: cmd :: len :: rest) m) =
  Some (None, receiving rest m).
Proof.
  intros Hlen. unfold receive_frame.
  rewrite run_bind, run_uart_read. simpl negb. cbv iota.
  rewrite run_bind, run_uart_read, run_bind, run_uart_read.
  destruct (Z.gtb_spec len 10) as [_|Hle]; [reflexivity|lia].
Qed.

Lemma run_receive_frame_no_start (b : Z) (rest : list Z) (m : machine) :
  b <> START_BYTE ->
  run receive_frame (receiving (b :: rest) m) = Some (None, receiving rest m).
Proof.
  intros Hb. unfold receive_frame.
  rewrite run_bind, run_uart_read.
  destruct (Z.eqb_spec b START_BYTE) as [Heq|_]; [contradiction|reflexivity].
Qed.

Lemma length_frame_with_checksum (cmd chk : Z) (payload : list Z) :
  length (frame_with_checksum cmd payload chk) = (length payload + 5)%nat.
Proof.
  unfold frame_with_checksum. simpl. rewrite length_app. simpl. lia.
Qed.

Lemma receiving_receiving (a b : list Z) (m : machine) :
  receiving a (receiving b m) = receiving a m.
Proof. reflexivity. Qed.

Lemma ram_receiving (bytes : list Z) (m : machine) : ram (receiving bytes m) = ram m.
Proof. reflexivity. Qed.

Lemma tx_receiving (bytes : list Z) (m : machine) :
  tx (serial (receiving bytes m)) = tx (serial m).
Proof. reflexivity. Qed.

(** ** Command dispatch *)

Section Foreground.

Variable beyond_table : Z -> Z.

Local Abbreviation seg := (seg_patterns_read beyond_table).
Local Abbreviation dispatch := (dispatch_command beyond_table).
Local Abbreviation process := (process_uart_command beyond_table).

Lemma run_update_display_buffer (m : machine) :
  run (update_display_buffer beyond_table) m =
  Some (tt, with_ram (set_display_buffer (map seg (display_indices (ram m)))) m).
Proof. reflexivity. Qed.

Lemma run_process (m : machine) :
  run process m =
  match run receive_frame m with
  | Some (Some (cmd, data_len, data), m') => run (dispatch cmd data_len data) m'
  | Some (None, m') => Some (tt, m')
  | None => None
  end.
Proof.
  unfold process_uart_command. rewrite run_bind.
  destruct (run receive_frame m) as [[[[[cmd data_len] data]|] m']|]; reflexivity.
Qed.

Lemma run_process_well_formed (cmd : Z) (payload rest : list Z) (m : machine) :
  Z.of_nat (length payload) <= 10 ->
  run process (receiving (well_formed_frame cmd payload ++ rest) m) =
  run (dispatch cmd (Z.of_nat (length payload)) payload) (receiving rest m).
Proof.
  intros Hlen. rewrite run_process.
  unfold well_formed_frame, frame_with_checksum.
  cbn [app]. rewrite <- app_assoc. cbn [app].
  rewrite run_receive_frame_shape by exact Hlen.
  rewrite !Z.eqb_refl. reflexivity.
Qed.

(** A table read inside the table does not depend on what lies past it. *)
Lemma seg_patterns_read_checked (i : Z) :
  0 <= i <= 9 -> seg_patterns_checked i = Some (seg i).
Proof.
  intros Hi.
  assert (H : i = 0 \/ i = 1 \/ i = 2 \/ i = 3 \/ i = 4 \/ i = 5 \/ i = 6
              \/ i = 7 \/ i = 8 \/ i = 9) by lia.
  repeat destruct H as [H|H]; subst i; reflexivity.
Qed.

(** ** Decoding claims *)

(** Claim C2.  For every frame [0xAA, opcode, len, payload, checksum, 0x55]
    whose payload has [len <= 10] bytes and whose checksum is
    opcode XOR len XOR the XOR of the payload bytes, one decoding pass
    returns, takes exactly the bytes of that frame off the stream (what
    follows the frame is what remains to be read) and reaches the command
    switch with the transmitted opcode, length and payload; the whole pass
    is then the dispatch of that command. *)
Theorem well_formed_frame_decoded (cmd : Z) (payload rest : list Z) (m : machine) :
  Z.of_nat (length payload) <= 10 ->
  run receive_frame (receiving (well_formed_frame cmd payload ++ rest) m) =
    Some (Some (cmd, Z.of_nat (length payload), payload), receiving rest m)
  /\ run process (receiving (well_formed_frame cmd payload ++ rest) m) =
     run (dispatch cmd (Z.of_nat (length payload)) payload) (receiving rest m).
Proof.
  intros Hlen. split.
  - unfold well_formed_frame, frame_with_checksum.
    cbn [app]. rewrite <- app_assoc. cbn [app].
    rewrite run_receive_frame_shape by exact Hlen.
    rewrite !Z.eqb_refl. reflexivity.
  - apply run_process_well_formed, Hlen.
Qed.

(** Claim C3.  Take a well-formed frame and put any other value in its
    checksum position.  The decoding pass returns having read the whole
    frame, rejects it before the command switch, and leaves the machine as
    it was but for the consumed bytes: the globals (match state and
    display buffer), the registers and the transmit log are unchanged. *)
Theorem corrupted_checksum_rejected
    (cmd chk : Z) (payload rest : list Z) (m : machine) :
  Z.of_nat (length payload) <= 10 ->
  chk <> frame_checksum cmd payload ->
  run receive_frame (receiving (frame_with_checksum cmd payload chk ++ rest) m) =
    Some (None, receiving rest m)
  /\ run process (receiving (frame_with_checksum cmd payload chk ++ rest) m) =
     Some (tt, receiving rest m)
  /\ ram (receiving rest m) = ram m
  /\ regs (receiving rest m) = regs m
  /\ tx (serial (receiving rest m)) = tx (serial m).
Proof.
  intros Hlen Hchk.
  assert (Hrecv :
    run receive_frame (receiving (frame_with_checksum cmd payload chk ++ rest) m) =
    Some (None, receiving rest m)).
  { unfold frame_with_checksum. cbn [app]. rewrite <- app_assoc. cbn [app].
    rewrite run_receive_frame_shape by exact Hlen.
    rewrite Z.eqb_refl. cbn [negb].
    destruct (Z.eqb_spec chk (frame_checksum cmd payload)) as [Heq|_];
      [contradiction|reflexivity]. }
  split; [exact Hrecv|]. split; [|repeat split].
  rewrite run_process, Hrecv. reflexivity.
Qed.

(** Claim C4.  When the length byte exceeds 10, the pass returns right
    after START, OPCODE and LEN: those three bytes are consumed and no
    other, the machine is otherwise unchanged, and the next pass starts
    reading at the byte that followed LEN. *)
Theorem oversized_length_aborts (cmd len : Z) (rest : list Z) (m : machine) :
  len > 10 ->
  run receive_frame (receiving (START_BYTE :: cmd :: len :: rest) m) =
    Some (None, receiving rest m)
  /\ run process (receiving (START_BYTE :: cmd :: len :: rest) m) =
     Some (tt, receiving rest m)
  /\ ram (receiving rest m) = ram m
  /\ regs (receiving rest m) = regs m
  /\ tx (serial (receiving rest m)) = tx (serial m)
  /\ run (process ;; process) (receiving (START_BYTE :: cmd :: len :: rest) m) =
     run process (receiving rest m).
Proof.
  intros Hlen.
  pose proof (run_receive_frame_too_long cmd len rest m Hlen) as Hrecv.
  assert (Hproc : run process (receiving (START_BYTE :: cmd :: len :: rest) m) =
                  Some (tt, receiving rest m)).
  { rewrite run_process, Hrecv. reflexivity. }
  repeat split; try assumption.
  rewrite run_bind, Hproc. reflexivity.
Qed.

(** ** Dispatch claims *)

(** Claim C1, as amended.  From every prior state, dispatching ResetMatch
    (0x05) returns with timer 2:30, both scores 0 and the match inactive,
    and the display buffer showing 02:30 and 00.  The two indicator flags
    keep the values they had; the indicator outputs are nevertheless low
    after the next refresh of the main loop, which gates them on
    [match_active]. *)
Theorem reset_match_restores (data_len : Z) (data : list Z) (m : machine) :
  exists m',
    run (dispatch CMD_RESET_MATCH data_len data) m = Some (tt, m')
    /\ timer_minutes (ram m') = 2 /\ timer_seconds (ram m') = 30
    /\ red_score (ram m') = 0 /\ blue_score (ram m') = 0
    /\ match_active (ram m') = false
    /\ red_led_state (ram m') = red_led_state (ram m)
    /\ blue_led_state (ram m') = blue_led_state (ram m)
    /\ display_buffer (ram m') = [0x3F; 0x5B; 0x4F; 0x3F; 0x3F; 0x3F]
    /\ current_digit (ram m') = current_digit (ram m)
    /\ regs m' = regs m /\ serial m' = serial m
    /\ LATB0 (regs (update_leds m')) = false
    /\ LATB1 (regs (update_leds m')) = false.
Proof.
  eexists. split; [reflexivity|]. repeat split.
Qed.

(** Claim C5.  Dispatching UpdateScore (0x01) with payload [12, 34] sets
    [red_score] to 12 and [blue_score] to 34, and the recomputed display
    buffer holds the table pattern of digit 1 in slot 4 and the table
    pattern of digit 2 in slot 5.  The same holds when the command arrives
    as the frame AA 01 02 0C 22 2D 55. *)
Theorem update_score_12_34 (rest : list Z) (m : machine) :
  (exists m',
     run (dispatch CMD_UPDATE_SCORE 2 [12; 34]) m = Some (tt, m')
     /\ red_score (ram m') = 12 /\ blue_score (ram m') = 34
     /\ nth_error (display_buffer (ram m')) 4 = nth_error seg_patterns 1
     /\ nth_error (display_buffer (ram m')) 5 = nth_error seg_patterns 2)
  /\ (exists m',
     run process
         (receiving ([0xAA; 0x01; 0x02; 12; 34; 0x2D; 0x55] ++ rest) m) =
       Some (tt, m')
     /\ red_score (ram m') = 12 /\ blue_score (ram m') = 34
     /\ nth_error (display_buffer (ram m')) 4 = nth_error seg_patterns 1
     /\ nth_error (display_buffer (ram m')) 5 = nth_error seg_patterns 2
     /\ rx (serial m') = rest)
  /\ nth_error seg_patterns 1 = Some 0x06
  /\ nth_error seg_patterns 2 = Some 0x5B.
Proof.
  split; [|split; [|split; reflexivity]].
  - eexists. split; [reflexivity|]. repeat split.
  - change ([0xAA; 0x01; 0x02; 12; 34; 0x2D; 0x55])
      with (well_formed_frame CMD_UPDATE_SCORE [12; 34]).
    rewrite run_process_well_formed by (simpl; lia).
    eexists. split; [reflexivity|]. repeat split.
Qed.

(** Claim C6.  Dispatching Ping (0x06) writes the three bytes AA, CC, 55,
    in that order and nothing else, to the transport, and changes no
    global (neither the match state nor any entry of the display buffer),
    no register and no pending input. *)
Theorem ping_acknowledged (data_len : Z) (data : list Z) (m : machine) :
  exists m',
    run (dispatch CMD_PING data_len data) m = Some (tt, m')
    /\ tx (serial m') = tx (serial m) ++ [0xAA; 0xCC; 0x55]
    /\ rx (serial m') = rx (serial m)
    /\ ram m' = ram m /\ regs m' = regs m.
Proof.
  eexists. split; [reflexivity|]. cbn. repeat split.
  rewrite <- !app_assoc. reflexivity.
Qed.

(** Claim C7.  Dispatching SetIndicator (0x07) with a selector byte
    [data[0]] that is neither 1 nor 2 changes nothing at all: both
    indicator flags and every other global are as before. *)
Theorem set_indicator_other_selector (data_len : Z) (data : list Z) (m : machine) :
  data_at data 0 <> 0x01 ->
  data_at data 0 <> 0x02 ->
  run (dispatch CMD_SET_LED data_len data) m = Some (tt, m).
Proof.
  intros H1 H2. unfold dispatch_command. cbn [CMD_SET_LED CMD_UPDATE_SCORE
    CMD_UPDATE_TIMER CMD_START_MATCH CMD_STOP_MATCH CMD_RESET_MATCH CMD_PING].
  change (0x07 =? 0x01) with false. change (0x07 =? 0x02) with false.
  change (0x07 =? 0x03) with false. change (0x07 =? 0x04) with false.
  change (0x07 =? 0x05) with false. change (0x07 =? 0x06) with false.
  change (0x07 =? 0x07) with true. cbv iota.
  destruct (data_len >=? 2); [|reflexivity].
  destruct (Z.eqb_spec (data_at data 0) 0x01) as [E|_]; [contradiction|].
  destruct (Z.eqb_spec (data_at data 0) 0x02) as [E|_]; [contradiction|].
  reflexivity.
Qed.

(** Claim C10.  A validated UpdateScore (0x01), UpdateTimer (0x02) or
    SetIndicator (0x07) command with 0 or 1 payload bytes changes nothing:
    the dispatch returns the machine it was given, whatever the [data]
    array holds, and a pass over such a frame consumes it and leaves the
    globals, the registers and the transmit log as they were. *)
Theorem short_payload_ignored
    (cmd data_len : Z) (data payload rest : list Z) (m : machine) :
  cmd = CMD_UPDATE_SCORE \/ cmd = CMD_UPDATE_TIMER \/ cmd = CMD_SET_LED ->
  data_len = 0 \/ data_len = 1 ->
  (length payload <= 1)%nat ->
  run (dispatch cmd data_len data) m = Some (tt, m)
  /\ run process (receiving (well_formed_frame cmd payload ++ rest) m) =
     Some (tt, receiving rest m)
  /\ ram (receiving rest m) = ram m
  /\ regs (receiving rest m) = regs m
  /\ tx (serial (receiving rest m)) = tx (serial m).
Proof.
  intros Hcmd Hlen Hpay.
  assert (Hshort : forall n d m0, n = 0 \/ n = 1 ->
            run (dispatch cmd n d) m0 = Some (tt, m0)).
  { intros n d m0 Hn.
    destruct Hcmd as [-> | [-> | ->]]; destruct Hn as [-> | ->]; reflexivity. }
  split; [apply Hshort, Hlen|]. split; [|repeat split].
  rewrite run_process_well_formed by lia.
  apply Hshort. lia.
Qed.

End Foreground.

(** ** The display *)

(** Claim C9.  When the minutes, the seconds and the red score are at
    most 99, each of the six table indices computed by
    [update_display_buffer] lies in 0-9, and a bounds-checked read of the
    table at that index succeeds and returns the very pattern the code
    stores.  A red score above 99 does leave the table: at 100 the tens
    index is 10 and the checked read fails. *)
Theorem display_indices_in_table :
  (forall (beyond_table : Z -> Z) (g : globals),
     uint8_globals g ->
     timer_minutes g <= 99 -> timer_seconds g <= 99 -> red_score g <= 99 ->
     Forall (fun i => 0 <= i <= 9 /\
                      seg_patterns_checked i = Some (seg_patterns_read beyond_table i))
            (display_indices g))
  /\ (exists g : globals,
       uint8_globals g /\ red_score g > 99 /\
       Exists (fun i => i > 9 /\ seg_patterns_checked i = None)
              (display_indices g)).
Proof.
  split.
  - intros bt g (Hm & Hs & Hr & _) Hm99 Hs99 Hr99.
    unfold uint8 in *.
    assert (Hdigit : forall i, 0 <= i <= 9 ->
              0 <= i <= 9 /\
              seg_patterns_checked i = Some (seg_patterns_read bt i)).
    { intros i Hi. split; [exact Hi|]. apply seg_patterns_read_checked, Hi. }
    unfold display_indices.
    repeat constructor; apply Hdigit; Z.div_mod_to_equations; lia.
  - exists (mkGlobals 2 30 100 0 [] 0 false false false).
    split; [unfold uint8_globals, uint8; simpl; lia|].
    split; [simpl; lia|].
    unfold display_indices.
    do 4 apply Exists_cons_tl. apply Exists_cons_hd.
    split; reflexivity.
Qed.

(** ** The multiplexer *)

(** One tick from a slot below 6: the segment lines carry the buffer
    entry of the slot, the select latch has the bit of the slot low and
    the other seven high, and the slot advances cyclically. *)
Lemma tick_spec (m : machine) :
  0 <= current_digit (ram m) < 6 ->
  tick m =
  mkMachine
    (set_current_digit ((current_digit (ram m) + 1) mod 6) (ram m))
    (mkSfr (LATB0 (regs m)) (LATB1 (regs m))
           (nth (Z.to_nat (current_digit (ram m))) (display_buffer (ram m)) 0)
           (0xFF - 2 ^ current_digit (ram m))
           (256 - 156) false)
    (serial m).
Proof.
  intros Hs.
  assert (H : current_digit (ram m) = 0 \/ current_digit (ram m) = 1 \/
              current_digit (ram m) = 2 \/ current_digit (ram m) = 3 \/
              current_digit (ram m) = 4 \/ current_digit (ram m) = 5) by lia.
  destruct m as [[tm ts rs bs buf cur ma rl bl] [b0 b1 lc ld t0 tf] u].
  cbn [ram current_digit] in *.
  repeat destruct H as [H|H]; subst cur; reflexivity.
Qed.

Lemma enabled_lines_one_hot (s : Z) :
  0 <= s < 6 -> enabled_lines (0xFF - 2 ^ s) = [s].
Proof.
  intros Hs.
  assert (H : s = 0 \/ s = 1 \/ s = 2 \/ s = 3 \/ s = 4 \/ s = 5) by lia.
  repeat destruct H as [H|H]; subst s; reflexivity.
Qed.

(** Claim C8.  Start with [current_digit] anywhere in 0-5 and let six
    ticks follow.  After the k-th tick exactly one select line is enabled,
    that of slot (s + k - 1) mod 6, and the segment lines carry the buffer
    entry of that slot; the six slots so activated are each of 0-5 exactly
    once, in cyclic order from s; [current_digit] is in 0-5 after every
    tick.  If at most one line was enabled before the first tick, at most
    one line is enabled at every instant of the six handlers' runs. *)
Theorem multiplexer_cycle (m : machine) :
  0 <= current_digit (ram m) < 6 ->
  map (fun m' => enabled_lines (LATD (regs m'))) (ticks 6 m) =
    map (fun k => [k]) (cyclic_slots (current_digit (ram m)))
  /\ map (fun m' => LATC (regs m')) (ticks 6 m) =
     map (fun k => nth (Z.to_nat k) (display_buffer (ram m)) 0)
         (cyclic_slots (current_digit (ram m)))
  /\ (forall k, In k select_lines ->
        count_occ Z.eq_dec (cyclic_slots (current_digit (ram m))) k = 1%nat)
  /\ map (fun m' => current_digit (ram m')) (ticks 6 m) =
     map (fun k => (k + 1) mod 6) (cyclic_slots (current_digit (ram m)))
  /\ Forall (fun m' => 0 <= current_digit (ram m') < 6) (ticks 6 m)
  /\ ((length (enabled_lines (LATD (regs m))) <= 1)%nat ->
      Forall (fun x => (length (enabled_lines (LATD (regs x))) <= 1)%nat)
             (ticks_instants 6 m)).
Proof.
  intros Hs.
  assert (H : current_digit (ram m) = 0 \/ current_digit (ram m) = 1 \/
              current_digit (ram m) = 2 \/ current_digit (ram m) = 3 \/
              current_digit (ram m) = 4 \/ current_digit (ram m) = 5) by lia.
  clear Hs.
  destruct m as [[tm ts rs bs buf cur ma rl bl] [b0 b1 lc ld t0 tf] u].
  cbn [ram regs current_digit display_buffer LATD] in *.
  assert (Hocc : forall s, 0 <= s < 6 -> forall k, In k select_lines ->
            count_occ Z.eq_dec (cyclic_slots s) k = 1%nat).
  { intros s Hs k Hk.
    assert (Hs' : s = 0 \/ s = 1 \/ s = 2 \/ s = 3 \/ s = 4 \/ s = 5) by lia.
    unfold select_lines in Hk. cbn [In] in Hk.
    repeat destruct Hk as [Hk|Hk]; try contradiction; subst k;
      repeat destruct Hs' as [Hs'|Hs']; subst s; reflexivity. }
  split; [|split; [|split; [apply Hocc; lia|split; [|split]]]].
  - repeat destruct H as [H|H]; subst cur; reflexivity.
  - repeat destruct H as [H|H]; subst cur; reflexivity.
  - repeat destruct H as [H|H]; subst cur; reflexivity.
  - repeat destruct H as [H|H]; subst cur;
      repeat (apply Forall_cons; [cbn; lia|]); apply Forall_nil.
  - intros Hl.
    repeat destruct H as [H|H]; subst cur;
      repeat (apply Forall_cons; [first [exact Hl | vm_compute; lia]|]);
      apply Forall_nil.
Qed.

(** ** Concrete runs *)

(** [match_running] is what one turn of the main loop makes of [power_on]
    when a StartMatch frame waits in the receiver. *)
Lemma match_running_reached :
  run (main_loop_body (fun _ => 0))
      (receiving (well_formed_frame CMD_START_MATCH []) power_on) =
  Some (tt, match_running).
Proof. reflexivity. Qed.

(** Claim C1, as stated, fails: ResetMatch dispatched while a match runs
    returns a state that is not the default state, because the indicator
    flags raised by StartMatch are still set. *)
Lemma reset_match_keeps_indicators :
  ~ (exists m',
       run (dispatch_command (fun _ => 0) CMD_RESET_MATCH 0 []) match_running =
         Some (tt, m')
       /\ default_state (ram m')).
Proof.
  intros (m' & Hrun & Hdef).
  vm_compute in Hrun. injection Hrun as <-.
  destruct Hdef as (_ & _ & _ & _ & _ & Hred & _).
  discriminate Hred.
Qed.

Lemma well_formed_frame_decoded_witness :
  Z.of_nat (length [12; 34]) <= 10 /\
  (run receive_frame (receiving (well_formed_frame 0x01 [12; 34] ++ [0xAA]) power_on) =
     Some (Some (0x01, Z.of_nat (length [12; 34]), [12; 34]), receiving [0xAA] power_on)
   /\ run (process_uart_command (fun _ => 0))
          (receiving (well_formed_frame 0x01 [12; 34] ++ [0xAA]) power_on) =
      run (dispatch_command (fun _ => 0) 0x01 (Z.of_nat (length [12; 34])) [12; 34])
          (receiving [0xAA] power_on)).
Proof.
  split; [simpl; lia|].
  apply (well_formed_frame_decoded (fun _ => 0) 0x01 [12; 34] [0xAA] power_on).
  simpl; lia.
Defined.

Lemma corrupted_checksum_rejected_witness :
  Z.of_nat (length [12; 34]) <= 10 /\
  0x2C <> frame_checksum 0x01 [12; 34] /\
  run (process_uart_command (fun _ => 0))
      (receiving (frame_with_checksum 0x01 [12; 34] 0x2C ++ [0xAA]) power_on) =
    Some (tt, receiving [0xAA] power_on).
Proof.
  assert (Hlen : Z.of_nat (length [12; 34]) <= 10) by (simpl; lia).
  assert (Hchk : 0x2C <> frame_checksum 0x01 [12; 34]) by (vm_compute; lia).
  split; [exact Hlen|]. split; [exact Hchk|].
  exact (proj1 (proj2
    (corrupted_checksum_rejected (fun _ => 0) 0x01 0x2C [12; 34] [0xAA] power_on
       Hlen Hchk))).
Defined.

Lemma oversized_length_aborts_witness :
  11 > 10 /\
  run (process_uart_command (fun _ => 0))
      (receiving (START_BYTE :: 0x01 :: 11 :: [0xAA; 0x06; 0x00; 0x06; 0x55]) power_on) =
    Some (tt, receiving [0xAA; 0x06; 0x00; 0x06; 0x55] power_on).
Proof.
  assert (Hlen : 11 > 10) by lia.
  split; [exact Hlen|].
  exact (proj1 (proj2
    (oversized_length_aborts (fun _ => 0) 0x01 11 [0xAA; 0x06; 0x00; 0x06; 0x55]
       power_on Hlen))).
Defined.

Lemma set_indicator_other_selector_witness :
  data_at [3; 1] 0 <> 0x01 /\ data_at [3; 1] 0 <> 0x02 /\
  run (dispatch_command (fun _ => 0) CMD_SET_LED 2 [3; 1]) match_running =
    Some (tt, match_running).
Proof.
  assert (H1 : data_at [3; 1] 0 <> 0x01) by (vm_compute; lia).
  assert (H2 : data_at [3; 1] 0 <> 0x02) by (vm_compute; lia).
  split; [exact H1|]. split; [exact H2|].
  exact (set_indicator_other_selector (fun _ => 0) 2 [3; 1] match_running H1 H2).
Defined.

Lemma multiplexer_cycle_witness :
  0 <= current_digit (ram power_on) < 6 /\
  map (fun m' => enabled_lines (LATD (regs m'))) (ticks 6 power_on) =
    map (fun k => [k]) (cyclic_slots (current_digit (ram power_on))).
Proof.
  assert (Hs : 0 <= current_digit (ram power_on) < 6) by (simpl; lia).
  split; [exact Hs|].
  exact (proj1 (multiplexer_cycle power_on Hs)).
Defined.

Lemma display_indices_in_table_witness :
  uint8_globals (ram match_running) /\
  Forall (fun i => 0 <= i <= 9 /\
                   seg_patterns_checked i = Some (seg_patterns_read (fun _ => 0) i))
         (display_indices (ram match_running)).
Proof.
  assert (Hg : uint8_globals (ram match_running))
    by (unfold uint8_globals, uint8; simpl; lia).
  split; [exact Hg|].
  apply (proj1 display_indices_in_table (fun _ => 0) (ram match_running) Hg);
    simpl; lia.
Defined.

Lemma short_payload_ignored_witness :
  (CMD_UPDATE_SCORE = CMD_UPDATE_SCORE \/ CMD_UPDATE_SCORE = CMD_UPDATE_TIMER
     \/ CMD_UPDATE_SCORE = CMD_SET_LED) /\
  (1 = 0 \/ 1 = 1) /\
  (length [7] <= 1)%nat /\
  run (process_uart_command (fun _ => 0))
      (receiving (well_formed_frame CMD_UPDATE_SCORE [7] ++ []) power_on) =
    Some (tt, receiving [] power_on).
Proof.
  assert (Hc : CMD_UPDATE_SCORE = CMD_UPDATE_SCORE \/ CMD_UPDATE_SCORE = CMD_UPDATE_TIMER
                 \/ CMD_UPDATE_SCORE = CMD_SET_LED) by (left; reflexivity).
  assert (Hn : 1 = 0 \/ 1 = 1) by (right; reflexivity).
  assert (Hp : (length [7] <= 1)%nat) by (simpl; lia).
  split; [exact Hc|]. split; [exact Hn|]. split; [exact Hp|].
  exact (proj1 (proj2
    (short_payload_ignored (fun _ => 0) CMD_UPDATE_SCORE 1 [7] [7] [] power_on
       Hc Hn Hp))).
Defined.

(** * Further properties of the code *)

(** ** Reception on an arbitrary stream *)

Lemma receiving_self (m : machine) : receiving (rx (serial m)) m = m.
Proof. destruct m as [g r [rxs txs]]. reflexivity. Qed.

Lemma run_uart_read_any (rxs : list Z) (m : machine) :
  run uart_read (receiving rxs m) =
  match rxs with
  | [] => None
  | b :: rest => Some (b, receiving rest m)
  end.
Proof. destruct rxs; reflexivity. Qed.

Lemma run_read_data_any (n : nat) (rxs : list Z) (m : machine) :
  run (read_data n) (receiving rxs m) =
  if (length rxs <? n)%nat then None
  else Some (firstn n rxs, receiving (skipn n rxs) m).
Proof.
  revert rxs m. induction n as [|n IH]; intros rxs m; cbn [read_data].
  - reflexivity.
  - rewrite run_bind, run_uart_read_any. destruct rxs as [|b rest].
    + reflexivity.
    + rewrite run_bind, IH. cbn [length firstn skipn].
      change (S (length rest) <? S n)%nat with (length rest <? n)%nat.
      destruct (length rest <? n)%nat; reflexivity.
Qed.

(** Everything one reception can do, read off the stream it is given. *)
Lemma run_receive_frame_any (rxs : list Z) (m : machine) :
  run receive_frame (receiving rxs m) =
  match rxs with
  | [] => None
  | start :: r1 =>
      if negb (start =? START_BYTE) then Some (None, receiving r1 m) else
      match r1 with
      | cmd :: data_len :: r3 =>
          if data_len >? 10 then Some (None, receiving r3 m) else
          match skipn (Z.to_nat data_len) r3 with
          | chk :: e :: r5 =>
              Some (if negb (e =? END_BYTE) then None
                    else if negb (chk =? calculated_checksum cmd data_len
                                           (firstn (Z.to_nat data_len) r3))
                         then None
                         else Some (cmd, data_len, firstn (Z.to_nat data_len) r3),
                    receiving r5 m)
          | _ => None
          end
      | _ => None
      end
  end.
Proof.
  unfold receive_frame.
  rewrite run_bind, run_uart_read_any. destruct rxs as [|start r1]; [reflexivity|].
  destruct (negb (start =? START_BYTE)); [reflexivity|].
  rewrite run_bind, run_uart_read_any. destruct r1 as [|cmd r2]; [reflexivity|].
  rewrite run_bind, run_uart_read_any. destruct r2 as [|data_len r3]; [reflexivity|].
  destruct (data_len >? 10); [reflexivity|].
  rewrite run_bind, run_read_data_any.
  destruct (Nat.ltb_spec (length r3) (Z.to_nat data_len)) as [Hshort|Hlong].
  - rewrite skipn_all2 by lia. reflexivity.
  - rewrite run_bind, run_uart_read_any.
    destruct (skipn (Z.to_nat data_len) r3) as [|chk r4]; [reflexivity|].
    rewrite run_bind, run_uart_read_any.
    destruct r4 as [|e r5]; [reflexivity|].
    destruct (negb (e =? END_BYTE)); [reflexivity|].
    destruct (negb (chk =? _)); reflexivity.
Qed.

Section Reception.

Variable beyond_table : Z -> Z.

Local Abbreviation dispatch := (dispatch_command beyond_table).
Local Abbreviation process := (process_uart_command beyond_table).

(** Case analysis over the tests of the command switch. *)
Ltac switch_cases :=
  unfold dispatch_command;
  repeat match goal with
         | |- context [if ?b then _ else _] => destruct b eqn:?
         end.

(** A dispatch always returns; it touches neither the registers nor the
    pending input nor the multiplexer's slot counter, and sends nothing
    but the ping acknowledgement. *)
Lemma run_dispatch_frame (cmd data_len : Z) (data : list Z) (m : machine) :
  exists m',
    run (dispatch cmd data_len data) m = Some (tt, m')
    /\ regs m' = regs m
    /\ rx (serial m') = rx (serial m)
    /\ current_digit (ram m') = current_digit (ram m)
    /\ (tx (serial m') = tx (serial m)
        \/ tx (serial m') = tx (serial m) ++ [0xAA; 0xCC; 0x55]).
Proof.
  switch_cases; eexists; (split; [reflexivity|]); cbn;
    repeat split; try (left; reflexivity).
  right. rewrite <- !app_assoc. reflexivity.
Qed.

(** The pending input plays no part in a dispatch. *)
Lemma run_dispatch_receiving (cmd data_len : Z) (data rxs : list Z) (m : machine) :
  run (dispatch cmd data_len data) (receiving rxs m) =
  match run (dispatch cmd data_len data) m with
  | Some (u, m') => Some (u, receiving rxs m')
  | None => None
  end.
Proof. switch_cases; reflexivity. Qed.

(** Extra X1.  Nothing but a well-formed frame is ever accepted: when a
    reception on a stream of bytes reaches the command switch with
    [cmd], [data_len] and [data], the stream began with the well-formed
    frame of [cmd] and [data], [data_len] is the number of bytes of [data]
    and at most 10, and exactly that frame was taken off the stream. *)
Theorem accepted_frame_is_well_formed
    (cmd data_len : Z) (data : list Z) (m m' : machine) :
  Forall uint8 (rx (serial m)) ->
  run receive_frame m = Some (Some (cmd, data_len, data), m') ->
  data_len = Z.of_nat (length data)
  /\ data_len <= 10
  /\ rx (serial m) = well_formed_frame cmd data ++ rx (serial m')
  /\ m' = receiving (rx (serial m')) m.
Proof.
  intros Hbytes Hrun.
  rewrite <- (receiving_self m), run_receive_frame_any in Hrun.
  destruct (rx (serial m)) as [|start [|c [|l r3]]] eqn:Hrx; try discriminate;
    try (destruct (negb (start =? START_BYTE)); discriminate).
  destruct (Z.eqb_spec start START_BYTE) as [->|]; [cbn [negb] in Hrun|discriminate].
  destruct (Z.gtb_spec l 10) as [|Hle]; [discriminate|].
  destruct (skipn (Z.to_nat l) r3) as [|chk [|e r5]] eqn:Hskip; try discriminate.
  destruct (Z.eqb_spec e END_BYTE) as [->|]; [cbn [negb] in Hrun|discriminate].
  destruct (Z.eqb_spec chk (calculated_checksum c l (firstn (Z.to_nat l) r3)))
    as [->|]; [cbn [negb] in Hrun|discriminate].
  injection Hrun as <- <- <- <-.
  assert (Hl : 0 <= l).
  { apply Forall_inv_tail, Forall_inv_tail, Forall_inv in Hbytes.
    apply Hbytes. }
  assert (Hlen : length (firstn (Z.to_nat l) r3) = Z.to_nat l).
  { apply firstn_length_le.
    pose proof (f_equal (@length Z) Hskip) as Hn.
    rewrite length_skipn in Hn. cbn [length] in Hn. lia. }
  assert (Hdl : l = Z.of_nat (length (firstn (Z.to_nat l) r3))) by lia.
  split; [exact Hdl|]. split; [exact Hle|]. split; [|reflexivity].
  cbn [serial rx receiving with_serial set_rx].
  unfold well_formed_frame, frame_with_checksum.
  rewrite <- calculated_checksum_frame, <- Hdl.
  cbn [app]. rewrite <- app_assoc. cbn [app]. rewrite <- Hskip, firstn_skipn.
  reflexivity.
Qed.

(** Extra X2.  A byte that is not the start marker is dropped alone: the
    pass takes that one byte, returns, and changes nothing else. *)
Theorem stray_byte_dropped (b : Z) (rest : list Z) (m : machine) :
  b <> START_BYTE ->
  run process (receiving (b :: rest) m) = Some (tt, receiving rest m).
Proof.
  intros Hb. rewrite run_process, run_receive_frame_no_start by exact Hb.
  reflexivity.
Qed.

(** Extra X3.  A frame whose last byte is not the end marker is rejected
    although its checksum is right: the pass reads all of it, returns
    before the command switch and changes nothing else. *)
Theorem wrong_end_marker_rejected
    (cmd e : Z) (payload rest : list Z) (m : machine) :
  Z.of_nat (length payload) <= 10 ->
  e <> END_BYTE ->
  run process
      (receiving (START_BYTE :: cmd :: Z.of_nat (length payload)
                    :: payload ++ frame_checksum cmd payload :: e :: rest) m) =
  Some (tt, receiving rest m).
Proof.
  intros Hlen He.
  rewrite run_process, run_receive_frame_shape by exact Hlen.
  destruct (Z.eqb_spec e END_BYTE) as [Heq|_]; [contradiction|reflexivity].
Qed.

(** Extra X4.  An incomplete frame stalls the pass: on any proper prefix
    of a frame (the empty one included) [process_uart_command] does not
    return, because it waits in [uart_read] for a byte that is not there. *)
Theorem truncated_frame_blocks
    (cmd chk : Z) (payload p q : list Z) (m : machine) :
  Z.of_nat (length payload) <= 10 ->
  frame_with_checksum cmd payload chk = p ++ q ->
  q <> [] ->
  run process (receiving p m) = None.
Proof.
  intros Hlen Hsplit Hq.
  rewrite run_process, run_receive_frame_any.
  unfold frame_with_checksum in Hsplit.
  destruct p as [|s [|c [|l r3]]]; cbn [app] in Hsplit.
  - reflexivity.
  - injection Hsplit as <- _. reflexivity.
  - injection Hsplit as <- <- _. reflexivity.
  - injection Hsplit as <- <- <- Hrest.
  change (negb (START_BYTE =? START_BYTE)) with false. cbv iota.
  destruct (Z.gtb_spec (Z.of_nat (length payload)) 10) as [|_]; [lia|].
  rewrite Nat2Z.id.
  assert (Hshort : (length (skipn (length payload) r3) < 2)%nat).
  { pose proof (f_equal (@length Z) Hrest) as Hn.
    rewrite !length_app in Hn. cbn [length] in Hn.
    rewrite length_skipn.
    destruct q as [|x q']; [contradiction|]. cbn [length] in Hn. lia. }
  destruct (skipn (length payload) r3) as [|x [|y r5]];
    [reflexivity|reflexivity|cbn [length] in Hshort; lia].
Qed.

(** Extra X5.  A pass that returns has taken between 1 and 15 bytes off
    the front of the stream, and has left the registers and the
    multiplexer's slot counter alone. *)
Theorem pass_consumption_bounded (m m' : machine) :
  run process m = Some (tt, m') ->
  exists consumed,
    rx (serial m) = consumed ++ rx (serial m')
    /\ (1 <= length consumed <= 15)%nat
    /\ regs m' = regs m
    /\ current_digit (ram m') = current_digit (ram m).
Proof.
  intros Hrun.
  rewrite run_process, <- (receiving_self m), run_receive_frame_any in Hrun.
  assert (Hpass : forall (frame : option (Z * Z * list Z)) rest consumed,
            rx (serial m) = consumed ++ rest ->
            (1 <= length consumed <= 15)%nat ->
            match frame with
            | Some (cmd, data_len, data) =>
                run (dispatch cmd data_len data) (receiving rest m)
            | None => Some (tt, receiving rest m)
            end = Some (tt, m') ->
            exists consumed,
              rx (serial m) = consumed ++ rx (serial m')
              /\ (1 <= length consumed <= 15)%nat
              /\ regs m' = regs m
              /\ current_digit (ram m') = current_digit (ram m)).
  { intros frame rest consumed Hrx Hlen Hd. exists consumed.
    destruct frame as [[[cmd data_len] data]|].
    - destruct (run_dispatch_frame cmd data_len data (receiving rest m))
        as (m1 & Hm1 & Hregs & Hrx1 & Hcur & _).
      rewrite Hm1 in Hd. injection Hd as <-.
      rewrite Hrx1, Hregs, Hcur. repeat split; try apply Hlen. exact Hrx.
    - injection Hd as <-. repeat split; try apply Hlen. exact Hrx. }
  destruct (rx (serial m)) as [|start r1] eqn:Hrx; [discriminate|].
  destruct (negb (start =? START_BYTE)).
  { apply (Hpass None r1 [start]); [reflexivity|cbn; lia|exact Hrun]. }
  destruct r1 as [|cmd [|data_len r3]]; try discriminate.
  destruct (Z.gtb_spec data_len 10) as [|Hle].
  { apply (Hpass None r3 [start; cmd; data_len]); [reflexivity|cbn; lia|exact Hrun]. }
  destruct (skipn (Z.to_nat data_len) r3) as [|chk [|e r5]] eqn:Hskip;
    try discriminate.
  refine (Hpass _ r5
            (start :: cmd :: data_len :: firstn (Z.to_nat data_len) r3 ++ [chk; e])
            _ _ Hrun).
  - cbn [app]. rewrite <- app_assoc. cbn [app].
    rewrite <- Hskip, firstn_skipn. reflexivity.
  - cbn [length]. rewrite length_app, length_firstn. cbn [length]. lia.
Qed.

End Reception.

(** ** Commands *)

Lemma run_receive_frame_ram (frame : option (Z * Z * list Z)) (m m1 : machine) :
  run receive_frame m = Some (frame, m1) ->
  m1 = receiving (rx (serial m1)) m.
Proof.
  intros Hrun.
  rewrite <- (receiving_self m), run_receive_frame_any in Hrun.
  destruct (rx (serial m)) as [|start r1]; [discriminate|].
  destruct (negb (start =? START_BYTE)); [injection Hrun as _ <-; reflexivity|].
  destruct r1 as [|cmd [|data_len r3]]; try discriminate.
  destruct (data_len >? 10); [injection Hrun as _ <-; reflexivity|].
  destruct (skipn (Z.to_nat data_len) r3) as [|chk [|e r5]]; try discriminate.
  injection Hrun as _ <-. reflexivity.
Qed.

Section Commands.

Variable beyond_table : Z -> Z.

Local Abbreviation dispatch := (dispatch_command beyond_table).
Local Abbreviation process := (process_uart_command beyond_table).
Local Abbreviation consistent := (buffer_consistent beyond_table).

Ltac switch_cases :=
  unfold dispatch_command;
  repeat match goal with
         | |- context [if ?b then _ else _] => destruct b eqn:?
         end.

Lemma run_main_loop_body (m : machine) :
  run (main_loop_body beyond_table) m =
  match rx (serial m) with
  | [] => Some (tt, update_leds m)
  | _ :: _ =>
      match run process m with
      | Some (_, m1) => Some (tt, update_leds m1)
      | None => None
      end
  end.
Proof.
  unfold main_loop_body. rewrite run_bind.
  change (run get m) with (Some (m, m)). cbv iota beta.
  rewrite run_bind. destruct (rx (serial m)) as [|b rest].
  - reflexivity.
  - destruct (run process m) as [[[] m1]|]; reflexivity.
Qed.

Lemma ram_update_leds (m : machine) : ram (update_leds m) = ram m.
Proof. unfold update_leds. destruct (match_active (ram m)); reflexivity. Qed.

Lemma run_dispatch_consistent (cmd data_len : Z) (data : list Z) (m m' : machine) :
  run (dispatch cmd data_len data) m = Some (tt, m') ->
  consistent (ram m) -> consistent (ram m').
Proof.
  unfold buffer_consistent. revert m'.
  switch_cases; intros m' Hrun Hc; injection Hrun as <-;
    first [exact Hc | reflexivity].
Qed.

(** Extra X6.  A valid frame with an opcode outside 1-7 is consumed and
    changes nothing: no global, no register, nothing sent. *)
Theorem unknown_opcode_ignored
    (cmd data_len : Z) (data payload rest : list Z) (m : machine) :
  cmd < 1 \/ 7 < cmd ->
  Z.of_nat (length payload) <= 10 ->
  run (dispatch cmd data_len data) m = Some (tt, m)
  /\ run process (receiving (well_formed_frame cmd payload ++ rest) m) =
     Some (tt, receiving rest m).
Proof.
  intros Hcmd Hlen.
  assert (Hnop : forall n d m0, run (dispatch cmd n d) m0 = Some (tt, m0)).
  { intros n d m0. unfold dispatch_command.
    unfold CMD_UPDATE_SCORE, CMD_UPDATE_TIMER, CMD_START_MATCH, CMD_STOP_MATCH,
      CMD_RESET_MATCH, CMD_PING, CMD_SET_LED.
    repeat match goal with
           | |- context [?a =? ?b] =>
               destruct (Z.eqb_spec a b); [lia|]
           end.
    reflexivity. }
  split; [apply Hnop|].
  rewrite run_process_well_formed by exact Hlen. apply Hnop.
Qed.

(** Extra X7.  Every command but Ping is idempotent: dispatching it twice
    in a row leaves the machine exactly as dispatching it once, so a
    retransmitted frame does no harm. *)
Theorem commands_idempotent (cmd data_len : Z) (data : list Z) (m : machine) :
  cmd <> CMD_PING ->
  run (dispatch cmd data_len data ;; dispatch cmd data_len data) m =
  run (dispatch cmd data_len data) m.
Proof.
  intros Hping. rewrite run_bind.
  switch_cases; try reflexivity.
  exfalso. apply Hping. apply Z.eqb_eq. assumption.
Qed.

(** Extra X8.  The blue score is stored but never shown: two UpdateScore
    commands that differ in the blue score only leave the same display
    buffer, each with its own [blue_score]. *)
Theorem blue_score_not_displayed (red blue1 blue2 : Z) (m : machine) :
  exists m1 m2,
    run (dispatch CMD_UPDATE_SCORE 2 [red; blue1]) m = Some (tt, m1)
    /\ run (dispatch CMD_UPDATE_SCORE 2 [red; blue2]) m = Some (tt, m2)
    /\ blue_score (ram m1) = blue1 /\ blue_score (ram m2) = blue2
    /\ display_buffer (ram m1) = display_buffer (ram m2).
Proof.
  do 2 eexists. split; [reflexivity|]. split; [reflexivity|].
  repeat split.
Qed.

(** Extra X9.  The display buffer stays consistent with the match state:
    if it holds the patterns of the current timer and red score before a
    turn of the main loop, or before a multiplexer tick, it does so
    after. *)
Theorem buffer_consistency_kept (m m' : machine) :
  consistent (ram m) ->
  (run (main_loop_body beyond_table) m = Some (tt, m') -> consistent (ram m'))
  /\ consistent (ram (tick m)).
Proof.
  intros Hc. split.
  - rewrite run_main_loop_body.
    destruct (rx (serial m)) as [|b rest] eqn:Hrx.
    + intros H. injection H as <-. rewrite ram_update_leds. exact Hc.
    + rewrite run_process.
      destruct (run receive_frame m) as [[frame m1]|] eqn:Hrecv; [|discriminate].
      pose proof (run_receive_frame_ram _ _ _ Hrecv) as Hm1.
      assert (Hc1 : consistent (ram m1)) by (rewrite Hm1; exact Hc).
      destruct frame as [[[cmd data_len] data]|].
      * destruct (run (dispatch cmd data_len data) m1) as [[[] m2]|] eqn:Hd;
          [|discriminate].
        intros H. injection H as <-. rewrite ram_update_leds.
        exact (run_dispatch_consistent _ _ _ _ _ Hd Hc1).
      * intros H. injection H as <-. rewrite ram_update_leds. exact Hc1.
  - unfold tick, ISR. cbn [TMR0IF regs with_regs set_TMR0IF].
    unfold buffer_consistent in *. unfold exec, ISR_body. cbn [fold_left].
    match goal with |- context [if ?b then _ else _] => destruct b end;
      exact Hc.
Qed.

(** Extra X10.  UpdateTimer and UpdateScore with two or more payload
    bytes store the first two bytes as they are, ignore the rest of the
    payload, leave the other match fields alone and make the display
    buffer consistent whatever it held before. *)
Theorem update_commands_apply (data_len : Z) (data : list Z) (m : machine) :
  data_len >= 2 ->
  (exists m',
     run (dispatch CMD_UPDATE_TIMER data_len data) m = Some (tt, m')
     /\ timer_minutes (ram m') = data_at data 0
     /\ timer_seconds (ram m') = data_at data 1
     /\ red_score (ram m') = red_score (ram m)
     /\ blue_score (ram m') = blue_score (ram m)
     /\ match_active (ram m') = match_active (ram m)
     /\ red_led_state (ram m') = red_led_state (ram m)
     /\ blue_led_state (ram m') = blue_led_state (ram m)
     /\ consistent (ram m'))
  /\ (exists m',
     run (dispatch CMD_UPDATE_SCORE data_len data) m = Some (tt, m')
     /\ red_score (ram m') = data_at data 0
     /\ blue_score (ram m') = data_at data 1
     /\ timer_minutes (ram m') = timer_minutes (ram m)
     /\ timer_seconds (ram m') = timer_seconds (ram m)
     /\ match_active (ram m') = match_active (ram m)
     /\ red_led_state (ram m') = red_led_state (ram m)
     /\ blue_led_state (ram m') = blue_led_state (ram m)
     /\ consistent (ram m')).
Proof.
  intros Hlen.
  assert (Hge : (data_len >=? 2) = true) by (apply Z.geb_le; lia).
  split; eexists; (split; [unfold dispatch_command; cbn; rewrite Hge; reflexivity|]);
    repeat split.
Qed.

End Commands.

(** ** The checksum *)



Lemma lxor_uint8 (a b : Z) : uint8 a -> uint8 b -> uint8 (Z.lxor a b).
Proof.
  unfold uint8. intros Ha Hb.
  assert (Hmod : Z.lxor a b = Z.lxor a b mod 2 ^ 8).
  { apply Z.bits_inj'. intros k Hk. destruct (Z.lt_ge_cases k 8).
    - rewrite Z.mod_pow2_bits_low by lia. reflexivity.
    - rewrite Z.mod_pow2_bits_high by lia. rewrite Z.lxor_spec.
      rewrite <- (Z.mod_small a (2 ^ 8)), <- (Z.mod_small b (2 ^ 8)) by lia.
      rewrite !Z.mod_pow2_bits_high by lia. reflexivity. }
  rewrite Hmod. apply Z.mod_pos_bound. reflexivity.
Qed.

Lemma fold_left_lxor_uint8 (l : list Z) (a : Z) :
  Forall uint8 l -> uint8 a -> uint8 (fold_left Z.lxor l a).
Proof.
  intros Hl. revert a. induction Hl as [|x xs Hx _ IH]; intros a Ha; cbn [fold_left].
  - exact Ha.
  - apply IH, lxor_uint8; assumption.
Qed.

Lemma fold_right_lxor_app (l1 l2 : list Z) :
  fold_right Z.lxor 0 (l1 ++ l2) =
  Z.lxor (fold_right Z.lxor 0 l1) (fold_right Z.lxor 0 l2).
Proof.
  induction l1 as [|x xs IH]; cbn [app fold_right].
  - reflexivity.
  - rewrite IH, Z.lxor_assoc. reflexivity.
Qed.

Lemma fold_right_lxor_perm (l1 l2 : list Z) :
  Permutation l1 l2 -> fold_right Z.lxor 0 l1 = fold_right Z.lxor 0 l2.
Proof.
  induction 1 as [|x l l' _ IH|x y l|l l' l'' _ IH1 _ IH2]; cbn [fold_right].
  - reflexivity.
  - now rewrite IH.
  - rewrite <- !Z.lxor_assoc, (Z.lxor_comm y x). reflexivity.
  - now rewrite IH1.
Qed.


(** Extra X11.  [calculate_checksum] run over opcode, length and payload
    gives the checksum the decoder expects, and the decoder's test
    amounts to this: the XOR of every byte between the two markers, the
    checksum included, is zero. *)
Theorem calculate_checksum_frame (cmd chk : Z) (payload : list Z) :
  calculate_checksum (cmd :: Z.of_nat (length payload) :: payload)
                     (Z.of_nat (length payload) + 2) =
    calculated_checksum cmd (Z.of_nat (length payload)) payload
  /\ (calculate_checksum (cmd :: Z.of_nat (length payload) :: payload ++ [chk])
                         (Z.of_nat (length payload) + 3) = 0
      <-> chk = calculated_checksum cmd (Z.of_nat (length payload)) payload).
Proof.
  unfold calculate_checksum.
  replace (Z.to_nat (Z.of_nat (length payload) + 2))
    with (length (cmd :: Z.of_nat (length payload) :: payload))
    by (cbn [length]; lia).
  replace (Z.to_nat (Z.of_nat (length payload) + 3))
    with (length (cmd :: Z.of_nat (length payload) :: payload ++ [chk]))
    by (cbn [length]; rewrite length_app; cbn [length]; lia).
  rewrite !firstn_all, calculated_checksum_frame. unfold frame_checksum.
  rewrite !fold_left_lxor, !Z.lxor_0_l. cbn [fold_right].
  rewrite fold_right_lxor_app. cbn [fold_right]. rewrite Z.lxor_0_r.
  set (n := Z.of_nat (length payload)). set (x := fold_right Z.lxor 0 payload).
  split; [symmetry; apply Z.lxor_assoc|].
  rewrite <- !Z.lxor_assoc, Z.lxor_eq_0_iff. split; intros H; symmetry; exact H.
Qed.

(** Extra X12.  Both checksum loops stay within 8 bits: on an 8-bit
    opcode, length and data bytes, the value the decoder computes and the
    value [calculate_checksum] returns lie in 0-255, so that storing them
    in a [uint8_t] loses nothing. *)
Theorem checksums_are_bytes (cmd data_len : Z) (data : list Z) :
  uint8 cmd -> uint8 data_len -> Forall uint8 data ->
  uint8 (calculated_checksum cmd data_len data)
  /\ uint8 (calculate_checksum data data_len).
Proof.
  intros Hcmd Hlen Hdata.
  assert (Hfirst : Forall uint8 (firstn (Z.to_nat data_len) data)).
  { rewrite <- (firstn_skipn (Z.to_nat data_len) data) in Hdata.
    apply Forall_app in Hdata. apply Hdata. }
  unfold calculated_checksum, calculate_checksum.
  split; apply fold_left_lxor_uint8; try exact Hfirst.
  - apply lxor_uint8; assumption.
  - unfold uint8. lia.
Qed.

Section Checksum.

Variable beyond_table : Z -> Z.

Local Abbreviation process := (process_uart_command beyond_table).


(** Extra X14.  The checksum does not see the order of the payload: a
    frame whose payload bytes were permuted in transit, with the checksum
    of the original, is accepted, and the command switch receives the
    permuted payload. *)
Theorem reordered_payload_accepted
    (cmd : Z) (payload payload' rest : list Z) (m : machine) :
  Permutation payload payload' ->
  Z.of_nat (length payload) <= 10 ->
  run receive_frame
      (receiving (frame_with_checksum cmd payload' (frame_checksum cmd payload)
                    ++ rest) m) =
  Some (Some (cmd, Z.of_nat (length payload'), payload'), receiving rest m).
Proof.
  intros Hperm Hlen.
  assert (Hchk : frame_checksum cmd payload = frame_checksum cmd payload').
  { unfold frame_checksum.
    rewrite (Permutation_length Hperm), (fold_right_lxor_perm _ _ Hperm).
    reflexivity. }
  rewrite Hchk. unfold frame_with_checksum. cbn [app]. rewrite <- app_assoc.
  cbn [app]. rewrite run_receive_frame_shape
    by (rewrite <- (Permutation_length Hperm); exact Hlen).
  rewrite !Z.eqb_refl. reflexivity.
Qed.

End Checksum.

(** ** Indicators and the main loop *)

Section MainLoop.

Variable beyond_table : Z -> Z.

Local Abbreviation seg := (seg_patterns_read beyond_table).
Local Abbreviation dispatch := (dispatch_command beyond_table).
Local Abbreviation process := (process_uart_command beyond_table).

(** Extra X15.  After every turn of the main loop each indicator pin is
    high exactly when the match is active and the flag of its alliance is
    set: no indicator is lit outside a match.  With nothing received the
    turn returns at once and leaves globals and serial link alone. *)
Theorem indicators_gated (m m' : machine) :
  run (main_loop_body beyond_table) m = Some (tt, m') ->
  LATB0 (regs m') = match_active (ram m') && red_led_state (ram m')
  /\ LATB1 (regs m') = match_active (ram m') && blue_led_state (ram m')
  /\ (rx (serial m) = [] -> ram m' = ram m /\ serial m' = serial m).
Proof.
  rewrite run_main_loop_body.
  assert (Hleds : forall m1,
            LATB0 (regs (update_leds m1)) =
              match_active (ram m1) && red_led_state (ram m1)
            /\ LATB1 (regs (update_leds m1)) =
              match_active (ram m1) && blue_led_state (ram m1)).
  { intros m1. unfold update_leds.
    destruct (match_active (ram m1)); split; reflexivity. }
  assert (Hkeep : forall m1, ram (update_leds m1) = ram m1
                             /\ serial (update_leds m1) = serial m1).
  { intros m1. unfold update_leds.
    destruct (match_active (ram m1)); split; reflexivity. }
  destruct (rx (serial m)) as [|b rest].
  - intros H. injection H as <-. rewrite (proj1 (Hkeep m)).
    destruct (Hleds m) as [H0 H1]. repeat split; try assumption; apply Hkeep.
  - destruct (run process m) as [[[] m1]|]; [|discriminate].
    intros H. injection H as <-. rewrite (proj1 (Hkeep m1)).
    destruct (Hleds m1) as [H0 H1]. repeat split; try assumption; discriminate.
Qed.

Lemma run_main_loop_body_frame (cmd : Z) (payload rest : list Z) (m : machine) :
  Z.of_nat (length payload) <= 10 ->
  run (main_loop_body beyond_table)
      (receiving (well_formed_frame cmd payload ++ rest) m) =
  match run (dispatch cmd (Z.of_nat (length payload)) payload) (receiving rest m) with
  | Some (_, m1) => Some (tt, update_leds m1)
  | None => None
  end.
Proof.
  intros Hlen. rewrite run_main_loop_body.
  rewrite run_process_well_formed by exact Hlen.
  reflexivity.
Qed.

(** Extra X16.  A StartMatch frame, taken through one turn of the main
    loop from any state, marks the match active and lights both
    indicators; a StopMatch frame clears the match and both flags and
    darkens both; a ResetMatch frame darkens both as well.  The payload,
    if any, is ignored, and what follows the frame stays in the
    receiver. *)
Theorem match_control_frames (payload rest : list Z) (m : machine) :
  Z.of_nat (length payload) <= 10 ->
  (exists m',
     run (main_loop_body beyond_table)
         (receiving (well_formed_frame CMD_START_MATCH payload ++ rest) m) =
       Some (tt, m')
     /\ match_active (ram m') = true
     /\ LATB0 (regs m') = true /\ LATB1 (regs m') = true
     /\ rx (serial m') = rest)
  /\ (exists m',
     run (main_loop_body beyond_table)
         (receiving (well_formed_frame CMD_STOP_MATCH payload ++ rest) m) =
       Some (tt, m')
     /\ match_active (ram m') = false
     /\ red_led_state (ram m') = false /\ blue_led_state (ram m') = false
     /\ LATB0 (regs m') = false /\ LATB1 (regs m') = false
     /\ rx (serial m') = rest)
  /\ (exists m',
     run (main_loop_body beyond_table)
         (receiving (well_formed_frame CMD_RESET_MATCH payload ++ rest) m) =
       Some (tt, m')
     /\ match_active (ram m') = false
     /\ LATB0 (regs m') = false /\ LATB1 (regs m') = false
     /\ rx (serial m') = rest).
Proof.
  intros Hlen.
  split; [|split]; eexists;
    (split; [rewrite run_main_loop_body_frame by exact Hlen; reflexivity|]);
    repeat split.
Qed.

(** Extra X17.  SetIndicator with two or more payload bytes and selector
    1 (red) or 2 (blue) sets that alliance's flag to "second byte is not
    zero" and nothing else; the pin follows only while the match is
    active; and a later StartMatch overrides it. *)
Theorem set_indicator_selected (data_len : Z) (data : list Z) (m : machine) :
  data_len >= 2 ->
  data_at data 0 = 1 \/ data_at data 0 = 2 ->
  exists m',
    run (dispatch CMD_SET_LED data_len data) m = Some (tt, m')
    /\ m' = with_ram (if data_at data 0 =? 1
                      then set_red_led_state (negb (data_at data 1 =? 0))
                      else set_blue_led_state (negb (data_at data 1 =? 0))) m
    /\ (match_active (ram m) = false ->
        LATB0 (regs (update_leds m')) = false
        /\ LATB1 (regs (update_leds m')) = false)
    /\ run (dispatch CMD_SET_LED data_len data ;;
            dispatch CMD_START_MATCH data_len data) m =
       run (dispatch CMD_START_MATCH data_len data) m.
Proof.
  intros Hlen Hsel.
  assert (Hge : (data_len >=? 2) = true) by (apply Z.geb_le; lia).
  assert (Hrun : run (dispatch CMD_SET_LED data_len data) m =
                 Some (tt, with_ram
                   (if data_at data 0 =? 1
                    then set_red_led_state (negb (data_at data 1 =? 0))
                    else set_blue_led_state (negb (data_at data 1 =? 0))) m)).
  { unfold dispatch_command. cbn. rewrite Hge.
    destruct Hsel as [-> | ->]; reflexivity. }
  eexists. split; [exact Hrun|]. split; [reflexivity|]. split.
  - intros Hoff. unfold update_leds.
    destruct Hsel as [-> | ->]; cbn; rewrite Hoff; split; reflexivity.
  - rewrite run_bind, Hrun. destruct Hsel as [-> | ->]; reflexivity.
Qed.

(** ** The display *)

Lemma seg_patterns_read_inj (i j : Z) :
  0 <= i <= 9 -> 0 <= j <= 9 -> seg i = seg j -> i = j.
Proof.
  intros Hi Hj.
  assert (Hi' : i = 0 \/ i = 1 \/ i = 2 \/ i = 3 \/ i = 4 \/ i = 5 \/ i = 6
              \/ i = 7 \/ i = 8 \/ i = 9) by lia.
  assert (Hj' : j = 0 \/ j = 1 \/ j = 2 \/ j = 3 \/ j = 4 \/ j = 5 \/ j = 6
              \/ j = 7 \/ j = 8 \/ j = 9) by lia.
  repeat destruct Hi' as [Hi'|Hi']; subst i;
    repeat destruct Hj' as [Hj'|Hj']; subst j;
    intros H; first [reflexivity | discriminate H].
Qed.

(** Extra X18.  For two-digit values the display is unambiguous: two
    states whose minutes, seconds and red score are at most 99 and whose
    recomputed buffers agree have the same minutes, seconds and red
    score. *)
Theorem display_determines_values (g1 g2 : globals) :
  uint8_globals g1 -> uint8_globals g2 ->
  timer_minutes g1 <= 99 -> timer_seconds g1 <= 99 -> red_score g1 <= 99 ->
  timer_minutes g2 <= 99 -> timer_seconds g2 <= 99 -> red_score g2 <= 99 ->
  map seg (display_indices g1) = map seg (display_indices g2) ->
  timer_minutes g1 = timer_minutes g2
  /\ timer_seconds g1 = timer_seconds g2
  /\ red_score g1 = red_score g2.
Proof.
  intros (Hm1 & Hs1 & Hr1 & _) (Hm2 & Hs2 & Hr2 & _) ? ? ? ? ? ? Heq.
  unfold uint8 in *. unfold display_indices in Heq. cbn [map] in Heq.
  injection Heq as E0 E1 E2 E3 E4 E5.
  assert (Hdigits : forall a b, 0 <= a <= 99 -> 0 <= b <= 99 ->
            seg (a / 10) = seg (b / 10) -> seg (a mod 10) = seg (b mod 10) ->
            a = b).
  { intros a b Ha Hb Ht Ho.
    apply seg_patterns_read_inj in Ht; [|Z.div_mod_to_equations; lia..].
    apply seg_patterns_read_inj in Ho; [|Z.div_mod_to_equations; lia..].
    rewrite (Z.div_mod a 10), (Z.div_mod b 10), Ht, Ho by lia. reflexivity. }
  repeat split; apply Hdigits; (assumption || lia).
Qed.

End MainLoop.

(** ** The multiplexer over any number of ticks *)

Lemma ticks_keep_state (n : nat) (m : machine) :
  0 <= current_digit (ram m) < 6 ->
  ram (Nat.iter n tick m) =
    set_current_digit ((current_digit (ram m) + Z.of_nat n) mod 6) (ram m)
  /\ serial (Nat.iter n tick m) = serial m.
Proof.
  intros Hs. induction n as [|n [IHram IHser]].
  - change (Nat.iter 0 tick m) with m. split; [|reflexivity].
    change (Z.of_nat 0) with 0. rewrite Z.add_0_r, Z.mod_small by lia.
    destruct (ram m); reflexivity.
  - change (Nat.iter (S n) tick m) with (tick (Nat.iter n tick m)).
    assert (Hcur : 0 <= current_digit (ram (Nat.iter n tick m)) < 6).
    { rewrite IHram. cbn [current_digit set_current_digit].
      apply Z.mod_pos_bound. lia. }
    rewrite (tick_spec _ Hcur). cbn [ram serial]. split; [|exact IHser].
    rewrite IHram. cbn [current_digit set_current_digit].
    rewrite Z.add_mod_idemp_l by lia.
    replace (current_digit (ram m) + Z.of_nat n + 1)
      with (current_digit (ram m) + Z.of_nat (S n)) by lia.
    reflexivity.
Qed.

Lemma tick_period (x : machine) :
  0 <= current_digit (ram x) < 6 ->
  Nat.iter 6 tick (tick x) = tick x.
Proof.
  intros Hx.
  assert (H : current_digit (ram x) = 0 \/ current_digit (ram x) = 1 \/
              current_digit (ram x) = 2 \/ current_digit (ram x) = 3 \/
              current_digit (ram x) = 4 \/ current_digit (ram x) = 5) by lia.
  clear Hx.
  destruct x as [[tm ts rs bs buf cur ma rl bl] [b0 b1 lc ld t0 tf] u].
  cbn [ram current_digit] in H.
  repeat destruct H as [H|H]; subst cur; reflexivity.
Qed.

(** Extra X19.  However many ticks have gone by, the multiplexer keeps
    its order: after [n] ticks from slot [s] the globals are as they were
    but for the slot counter, which is [(s + n) mod 6]; the next tick
    enables the line of that slot alone and puts that slot's buffer entry
    on the segment lines; and from then on the whole machine repeats with
    period 6.  The serial link is never touched. *)
Theorem multiplexer_after_n_ticks (n : nat) (m : machine) :
  0 <= current_digit (ram m) < 6 ->
  ram (Nat.iter n tick m) =
    set_current_digit ((current_digit (ram m) + Z.of_nat n) mod 6) (ram m)
  /\ serial (Nat.iter n tick m) = serial m
  /\ enabled_lines (LATD (regs (Nat.iter (S n) tick m))) =
     [(current_digit (ram m) + Z.of_nat n) mod 6]
  /\ LATC (regs (Nat.iter (S n) tick m)) =
     nth (Z.to_nat ((current_digit (ram m) + Z.of_nat n) mod 6))
         (display_buffer (ram m)) 0
  /\ Nat.iter (S n + 6) tick m = Nat.iter (S n) tick m.
Proof.
  intros Hs. destruct (ticks_keep_state n m Hs) as [Hram Hser].
  assert (Hcur : 0 <= current_digit (ram (Nat.iter n tick m)) < 6).
  { rewrite Hram. cbn [current_digit set_current_digit].
    apply Z.mod_pos_bound. lia. }
  split; [exact Hram|]. split; [exact Hser|].
  assert (Hperiod : Nat.iter (S n + 6) tick m = Nat.iter (S n) tick m).
  { replace (S n + 6)%nat with (6 + S n)%nat by lia.
    rewrite Nat.iter_add.
    change (Nat.iter (S n) tick m) with (tick (Nat.iter n tick m)).
    apply tick_period, Hcur. }
  split; [|split; [|exact Hperiod]];
    change (Nat.iter (S n) tick m) with (tick (Nat.iter n tick m));
    rewrite (tick_spec _ Hcur); cbn [regs LATD LATC].
  - rewrite enabled_lines_one_hot by exact Hcur.
    rewrite Hram. reflexivity.
  - rewrite Hram. reflexivity.
Qed.

(** ** Start-up *)


(** ** Sequences of frames *)

Section Sequences.

Variable beyond_table : Z -> Z.

Local Abbreviation dispatch := (dispatch_command beyond_table).
Local Abbreviation process := (process_uart_command beyond_table).

(** Extra X21.  Frames sent back to back are executed in order, one per
    pass: as many passes as there are well-formed frames at the head of
    the stream consume exactly those frames and have the effect of
    dispatching their commands one after the other. *)
Theorem frames_dispatched_in_order (cmds : list command) (rest : list Z) (m : machine) :
  Forall (fun c => Z.of_nat (length (snd c)) <= 10) cmds ->
  run (passes beyond_table (length cmds)) (receiving (frames cmds ++ rest) m) =
  run (dispatch_all beyond_table cmds) (receiving rest m).
Proof.
  intros Hall. revert m.
  induction Hall as [|[cmd payload] cs Hc _ IH]; intros m.
  - reflexivity.
  - cbn [length passes dispatch_all frames flat_map fst snd] in *.
    rewrite <- app_assoc. rewrite !run_bind.
    rewrite run_process_well_formed by exact Hc.
    rewrite !run_dispatch_receiving.
    destruct (run (dispatch cmd (Z.of_nat (length payload)) payload) m)
      as [[[] m1]|]; [|reflexivity].
    apply IH.
Qed.

(** Extra X22.  After an oversized length byte the decoder resumes inside
    what the sender meant as payload: if those bytes form a well-formed
    frame, the next pass executes it as a command. *)
Theorem oversized_frame_payload_executed
    (cmd len cmd' : Z) (payload' rest : list Z) (m : machine) :
  len > 10 ->
  Z.of_nat (length payload') <= 10 ->
  run (process ;; process)
      (receiving (START_BYTE :: cmd :: len
                    :: well_formed_frame cmd' payload' ++ rest) m) =
  run (dispatch cmd' (Z.of_nat (length payload')) payload') (receiving rest m).
Proof.
  intros Hlen Hp.
  rewrite run_bind, run_process, run_receive_frame_too_long by exact Hlen.
  apply run_process_well_formed, Hp.
Qed.

End Sequences.

(** ** Concrete runs of the further properties *)

Lemma accepted_frame_is_well_formed_witness :
  Forall uint8 (rx (serial (receiving (well_formed_frame 0x03 []) power_on))) /\
  run receive_frame (receiving (well_formed_frame 0x03 []) power_on) =
    Some (Some (0x03, 0, []), receiving [] power_on) /\
  rx (serial (receiving (well_formed_frame 0x03 []) power_on)) =
    well_formed_frame 0x03 [] ++ rx (serial (receiving [] power_on)).
Proof.
  assert (Hb : Forall uint8
                 (rx (serial (receiving (well_formed_frame 0x03 []) power_on)))).
  { change (Forall uint8 [0xAA; 0x03; 0x00; 0x03; 0x55]).
    repeat (apply Forall_cons; [unfold uint8; lia|]). apply Forall_nil. }
  assert (Hr : run receive_frame (receiving (well_formed_frame 0x03 []) power_on) =
               Some (Some (0x03, 0, []), receiving [] power_on)) by reflexivity.
  split; [exact Hb|]. split; [exact Hr|].
  exact (proj1 (proj2 (proj2
    (accepted_frame_is_well_formed 0x03 0 [] _ _ Hb Hr)))).
Defined.

Lemma stray_byte_dropped_witness :
  0x00 <> START_BYTE /\
  run (process_uart_command (fun _ => 0)) (receiving [0x00; 0xAA] power_on) =
    Some (tt, receiving [0xAA] power_on).
Proof.
  assert (Hb : 0x00 <> START_BYTE) by (unfold START_BYTE; lia).
  split; [exact Hb|].
  exact (stray_byte_dropped (fun _ => 0) 0x00 [0xAA] power_on Hb).
Defined.

Lemma wrong_end_marker_rejected_witness :
  Z.of_nat (length [12; 34]) <= 10 /\ 0x54 <> END_BYTE /\
  run (process_uart_command (fun _ => 0))
      (receiving (START_BYTE :: 0x01 :: Z.of_nat (length [12; 34])
                    :: [12; 34] ++ frame_checksum 0x01 [12; 34] :: 0x54 :: [])
                 power_on) =
    Some (tt, receiving [] power_on).
Proof.
  assert (Hl : Z.of_nat (length [12; 34]) <= 10) by (simpl; lia).
  assert (He : 0x54 <> END_BYTE) by (unfold END_BYTE; lia).
  split; [exact Hl|]. split; [exact He|].
  exact (wrong_end_marker_rejected (fun _ => 0) 0x01 0x54 [12; 34] [] power_on Hl He).
Defined.

Lemma truncated_frame_blocks_witness :
  Z.of_nat (length [12; 34]) <= 10 /\
  frame_with_checksum 0x01 [12; 34] 0x2D = [0xAA; 0x01; 0x02; 12] ++ [34; 0x2D; 0x55] /\
  [34; 0x2D; 0x55] <> [] /\
  run (process_uart_command (fun _ => 0))
      (receiving [0xAA; 0x01; 0x02; 12] power_on) = None.
Proof.
  assert (Hl : Z.of_nat (length [12; 34]) <= 10) by (simpl; lia).
  assert (Hs : frame_with_checksum 0x01 [12; 34] 0x2D =
               [0xAA; 0x01; 0x02; 12] ++ [34; 0x2D; 0x55]) by reflexivity.
  assert (Hq : [34; 0x2D; 0x55] <> []) by discriminate.
  split; [exact Hl|]. split; [exact Hs|]. split; [exact Hq|].
  exact (truncated_frame_blocks (fun _ => 0) 0x01 0x2D [12; 34]
           [0xAA; 0x01; 0x02; 12] [34; 0x2D; 0x55] power_on Hl Hs Hq).
Defined.

Lemma pass_consumption_bounded_witness :
  run (process_uart_command (fun _ => 0))
      (receiving (well_formed_frame 0x03 [] ++ [0xAA]) power_on) =
    Some (tt, with_ram (fun g => set_blue_led_state true
                         (set_red_led_state true (set_match_active true g)))
                       (receiving [0xAA] power_on)) /\
  exists consumed,
    rx (serial (receiving (well_formed_frame 0x03 [] ++ [0xAA]) power_on)) =
      consumed ++ [0xAA]
    /\ (1 <= length consumed <= 15)%nat.
Proof.
  assert (Hr : run (process_uart_command (fun _ => 0))
                 (receiving (well_formed_frame 0x03 [] ++ [0xAA]) power_on) =
               Some (tt, with_ram (fun g => set_blue_led_state true
                                    (set_red_led_state true (set_match_active true g)))
                                  (receiving [0xAA] power_on))) by reflexivity.
  split; [exact Hr|].
  destruct (pass_consumption_bounded (fun _ => 0) _ _ Hr)
    as (consumed & Hrx & Hlen & _).
  exists consumed. split; [exact Hrx|exact Hlen].
Defined.

Lemma unknown_opcode_ignored_witness :
  (0x08 < 1 \/ 7 < 0x08) /\ Z.of_nat (length [1; 2; 3]) <= 10 /\
  run (process_uart_command (fun _ => 0))
      (receiving (well_formed_frame 0x08 [1; 2; 3] ++ []) match_running) =
    Some (tt, receiving [] match_running).
Proof.
  assert (Hc : 0x08 < 1 \/ 7 < 0x08) by lia.
  assert (Hl : Z.of_nat (length [1; 2; 3]) <= 10) by (simpl; lia).
  split; [exact Hc|]. split; [exact Hl|].
  exact (proj2 (unknown_opcode_ignored (fun _ => 0) 0x08 3 [1; 2; 3] [1; 2; 3] []
                  match_running Hc Hl)).
Defined.

Lemma commands_idempotent_witness :
  CMD_UPDATE_TIMER <> CMD_PING /\
  run (dispatch_command (fun _ => 0) CMD_UPDATE_TIMER 2 [1; 45] ;;
       dispatch_command (fun _ => 0) CMD_UPDATE_TIMER 2 [1; 45]) power_on =
  run (dispatch_command (fun _ => 0) CMD_UPDATE_TIMER 2 [1; 45]) power_on.
Proof.
  assert (Hc : CMD_UPDATE_TIMER <> CMD_PING)
    by (unfold CMD_UPDATE_TIMER, CMD_PING; lia).
  split; [exact Hc|].
  exact (commands_idempotent (fun _ => 0) CMD_UPDATE_TIMER 2 [1; 45] power_on Hc).
Defined.

Lemma buffer_consistency_kept_witness :
  buffer_consistent (fun _ => 0) (ram power_on) /\
  buffer_consistent (fun _ => 0) (ram (tick power_on)).
Proof.
  assert (Hc : buffer_consistent (fun _ => 0) (ram power_on)) by reflexivity.
  split; [exact Hc|].
  exact (proj2 (buffer_consistency_kept (fun _ => 0) power_on power_on Hc)).
Defined.

Lemma update_commands_apply_witness :
  2 >= 2 /\
  exists m',
    run (dispatch_command (fun _ => 0) CMD_UPDATE_TIMER 2 [1; 45]) power_on =
      Some (tt, m')
    /\ timer_minutes (ram m') = 1 /\ timer_seconds (ram m') = 45.
Proof.
  assert (Hl : 2 >= 2) by lia.
  split; [exact Hl|].
  destruct (proj1 (update_commands_apply (fun _ => 0) 2 [1; 45] power_on Hl))
    as (m' & Hrun & Hmin & Hsec & _).
  exists m'. split; [exact Hrun|]. split; [exact Hmin|exact Hsec].
Defined.

Lemma checksums_are_bytes_witness :
  uint8 0x01 /\ uint8 2 /\ Forall uint8 [12; 34] /\
  uint8 (calculated_checksum 0x01 2 [12; 34]).
Proof.
  assert (Hc : uint8 0x01) by (unfold uint8; lia).
  assert (Hn : uint8 2) by (unfold uint8; lia).
  assert (Hp : Forall uint8 [12; 34])
    by (repeat (apply Forall_cons; [unfold uint8; lia|]); apply Forall_nil).
  split; [exact Hc|]. split; [exact Hn|]. split; [exact Hp|].
  exact (proj1 (checksums_are_bytes 0x01 2 [12; 34] Hc Hn Hp)).
Defined.


Lemma reordered_payload_accepted_witness :
  Permutation [12; 34] [34; 12] /\ Z.of_nat (length [12; 34]) <= 10 /\
  run receive_frame
      (receiving (frame_with_checksum 0x01 [34; 12] (frame_checksum 0x01 [12; 34])
                    ++ []) power_on) =
    Some (Some (0x01, Z.of_nat (length [34; 12]), [34; 12]), receiving [] power_on).
Proof.
  assert (Hp : Permutation [12; 34] [34; 12]) by apply perm_swap.
  assert (Hl : Z.of_nat (length [12; 34]) <= 10) by (simpl; lia).
  split; [exact Hp|]. split; [exact Hl|].
  exact (reordered_payload_accepted 0x01 [12; 34] [34; 12] [] power_on Hp Hl).
Defined.

Lemma indicators_gated_witness :
  run (main_loop_body (fun _ => 0))
      (receiving (well_formed_frame CMD_START_MATCH []) power_on) =
    Some (tt, match_running) /\
  LATB0 (regs match_running) =
    match_active (ram match_running) && red_led_state (ram match_running).
Proof.
  assert (Hr : run (main_loop_body (fun _ => 0))
                 (receiving (well_formed_frame CMD_START_MATCH []) power_on) =
               Some (tt, match_running)) by reflexivity.
  split; [exact Hr|].
  exact (proj1 (indicators_gated (fun _ => 0) _ _ Hr)).
Defined.

Lemma set_indicator_selected_witness :
  2 >= 2 /\ (data_at [1; 0] 0 = 1 \/ data_at [1; 0] 0 = 2) /\
  exists m',
    run (dispatch_command (fun _ => 0) CMD_SET_LED 2 [1; 0]) match_running =
      Some (tt, m')
    /\ m' = with_ram (if data_at [1; 0] 0 =? 1
                      then set_red_led_state (negb (data_at [1; 0] 1 =? 0))
                      else set_blue_led_state (negb (data_at [1; 0] 1 =? 0)))
                     match_running.
Proof.
  assert (Hl : 2 >= 2) by lia.
  assert (Hs : data_at [1; 0] 0 = 1 \/ data_at [1; 0] 0 = 2) by (left; reflexivity).
  split; [exact Hl|]. split; [exact Hs|].
  destruct (set_indicator_selected (fun _ => 0) 2 [1; 0] match_running Hl Hs)
    as (m' & Hrun & Hm' & _).
  exists m'. split; [exact Hrun|exact Hm'].
Defined.

Lemma display_determines_values_witness :
  uint8_globals (ram power_on) /\ uint8_globals (ram match_running) /\
  map (seg_patterns_read (fun _ => 0)) (display_indices (ram power_on)) =
    map (seg_patterns_read (fun _ => 0)) (display_indices (ram match_running)) /\
  timer_minutes (ram power_on) = timer_minutes (ram match_running).
Proof.
  assert (H1 : uint8_globals (ram power_on))
    by (unfold uint8_globals, uint8; simpl; lia).
  assert (H2 : uint8_globals (ram match_running))
    by (unfold uint8_globals, uint8; simpl; lia).
  assert (He : map (seg_patterns_read (fun _ => 0)) (display_indices (ram power_on)) =
               map (seg_patterns_read (fun _ => 0))
                   (display_indices (ram match_running))) by reflexivity.
  split; [exact H1|]. split; [exact H2|]. split; [exact He|].
  refine (proj1 (display_determines_values (fun _ => 0) (ram power_on)
                   (ram match_running) H1 H2 _ _ _ _ _ _ He)); simpl; lia.
Defined.

Lemma multiplexer_after_n_ticks_witness :
  0 <= current_digit (ram power_on) < 6 /\
  enabled_lines (LATD (regs (Nat.iter 8 tick power_on))) =
    [(current_digit (ram power_on) + Z.of_nat 7) mod 6].
Proof.
  assert (Hs : 0 <= current_digit (ram power_on) < 6) by (simpl; lia).
  split; [exact Hs|].
  exact (proj1 (proj2 (proj2 (multiplexer_after_n_ticks 7 power_on Hs)))).
Defined.

Lemma frames_dispatched_in_order_witness :
  Forall (fun c : command => Z.of_nat (length (snd c)) <= 10)
         [(CMD_START_MATCH, []); (CMD_UPDATE_SCORE, [12; 34])] /\
  run (passes (fun _ => 0) 2)
      (receiving (frames [(CMD_START_MATCH, []); (CMD_UPDATE_SCORE, [12; 34])]
                    ++ [0xAA]) power_on) =
  run (dispatch_all (fun _ => 0)
         [(CMD_START_MATCH, []); (CMD_UPDATE_SCORE, [12; 34])])
      (receiving [0xAA] power_on).
Proof.
  assert (Hall : Forall (fun c : command => Z.of_nat (length (snd c)) <= 10)
                   [(CMD_START_MATCH, []); (CMD_UPDATE_SCORE, [12; 34])])
    by (repeat (apply Forall_cons; [simpl; lia|]); apply Forall_nil).
  split; [exact Hall|].
  exact (frames_dispatched_in_order (fun _ => 0)
           [(CMD_START_MATCH, []); (CMD_UPDATE_SCORE, [12; 34])] [0xAA]
           power_on Hall).
Defined.

Lemma oversized_frame_payload_executed_witness :
  11 > 10 /\ Z.of_nat (length (@nil Z)) <= 10 /\
  run (process_uart_command (fun _ => 0) ;; process_uart_command (fun _ => 0))
      (receiving (START_BYTE :: CMD_UPDATE_SCORE :: 11
                    :: well_formed_frame CMD_RESET_MATCH [] ++ []) match_running) =
  run (dispatch_command (fun _ => 0) CMD_RESET_MATCH (Z.of_nat (length (@nil Z))) [])
      (receiving [] match_running).
Proof.
  assert (Hl : 11 > 10) by lia.
  assert (Hp : Z.of_nat (length (@nil Z)) <= 10) by (simpl; lia).
  split; [exact Hl|]. split; [exact Hp|].
  exact (oversized_frame_payload_executed (fun _ => 0) CMD_UPDATE_SCORE 11
           CMD_RESET_MATCH [] [] match_running Hl Hp).
Defined.

Lemma match_control_frames_witness :
  Z.of_nat (length (@nil Z)) <= 10 /\
  exists m',
    run (main_loop_body (fun _ => 0))
        (receiving (well_formed_frame CMD_START_MATCH [] ++ []) power_on) =
      Some (tt, m')
    /\ match_active (ram m') = true
    /\ LATB0 (regs m') = true /\ LATB1 (regs m') = true.
Proof.
  assert (Hl : Z.of_nat (length (@nil Z)) <= 10) by (simpl; lia).
  split; [exact Hl|].
  destruct (proj1 (match_control_frames (fun _ => 0) [] [] power_on Hl))
    as (m' & Hrun & Hact & H0 & H1 & _).
  exists m'. repeat split; assumption.
Defined.
